(** * Quora scraper: the extraction heuristics and the exporter

    A shallow embedding of [src/extractors/quora_parser.py] and
    [src/outputs/exporters.py].

    Conventions of the embedding.
    - A Python [str] is a Rocq [string].  The development is about text in
      the ASCII range, where [str.strip], [str.split], [str.lower] and the
      UTF-8 encoding are exactly the functions below; a character above 127
      is carried along as an opaque, non-blank, caseless character.
    - A Python exception is a value of [exn]; a computation that may raise
      lives in [result].
    - Python integers are [Z]; Python floats are IEEE binary64 numbers,
      [spec_float] at precision 53.
    - The parsed page (a BeautifulSoup tree) is a [node].
    - The standard library's [urllib.parse] is a type class, with CPython's
      functions as an instance; [hashlib.sha256] is SHA-256 itself.
    - The exporter is a tree of requests to the operating system, the clock,
      the logger and the serialisers, run against a world.

    The session set-up and the fetching of pages ([_build_session], [_get],
    [scrape_url], [_scrape_search], [_scrape_question]) are outside the
    embedding: the parsers start from a parsed page. *)

From Stdlib Require Import ZArith List Ascii String Bool Lia.
From Stdlib Require Import Floats.SpecFloat.
Import ListNotations.

Set Warnings "-register-all".

Open Scope string_scope.
Open Scope Z_scope.

(** ** Exceptions and fallible computations *)

Inductive exn : Type :=
| ValueError (msg : string)
| OverflowError (msg : string)
| KeyError (key : string)
| OSError (msg : string).

Inductive result (A : Type) : Type :=
| Ok (a : A)
| Raise (e : exn).

Arguments Ok {A} a.
Arguments Raise {A} e.

Definition rbind {A B : Type} (m : result A) (f : A -> result B) : result B :=
  match m with
  | Ok a => f a
  | Raise e => Raise e
  end.

Notation "x <- m ;; k" := (rbind m (fun x => k))
  (at level 61, m at next level, right associativity).

Definition is_ok {A : Type} (m : result A) : bool :=
  match m with Ok _ => true | Raise _ => false end.

(** [try: m except ValueError: h] *)
Definition except_ValueError {A : Type} (m : result A) (h : result A) : result A :=
  match m with
  | Raise (ValueError _) => h
  | _ => m
  end.

(** ** Python string operations *)

Module Str.

Definition code (c : ascii) : Z := Z.of_nat (nat_of_ascii c).

(** [str.isspace] on one ASCII character: TAB..CR, FS..US and the space. *)
Definition isspace (c : ascii) : bool :=
  let n := code c in
  ((9 <=? n) && (n <=? 13)) || ((28 <=? n) && (n <=? 32)).

(** C's [isspace], which [float] and [int] use on ASCII text. *)
Definition c_isspace (c : ascii) : bool :=
  let n := code c in
  ((9 <=? n) && (n <=? 13)) || (n =? 32).

Definition isdigit (c : ascii) : bool :=
  let n := code c in (48 <=? n) && (n <=? 57).

Definition lower_char (c : ascii) : ascii :=
  let n := code c in
  if (65 <=? n) && (n <=? 90) then ascii_of_nat (Z.to_nat (n + 32)) else c.

Fixpoint lower (s : string) : string :=
  match s with
  | EmptyString => EmptyString
  | String c t => String (lower_char c) (lower t)
  end.

Definition is_empty (s : string) : bool :=
  match s with EmptyString => true | _ => false end.

(** [bool(s)] of a string. *)
Definition truthy (s : string) : bool := negb (is_empty s).

Definition len (s : string) : Z := Z.of_nat (String.length s).

(** [s.startswith(p)] *)
Definition startswith (s p : string) : bool := String.prefix p s.

(** [needle in hay] *)
Fixpoint contains (needle hay : string) : bool :=
  String.prefix needle hay ||
  match hay with
  | EmptyString => false
  | String _ t => contains needle t
  end.

Fixpoint lstrip_by (sp : ascii -> bool) (s : string) : string :=
  match s with
  | EmptyString => EmptyString
  | String c t => if sp c then lstrip_by sp t else s
  end.

Fixpoint rstrip_by (sp : ascii -> bool) (s : string) : string :=
  match s with
  | EmptyString => EmptyString
  | String c t =>
      let t' := rstrip_by sp t in
      if sp c && is_empty t' then EmptyString else String c t'
  end.

(** [s.strip()] *)
Definition strip (s : string) : string := rstrip_by isspace (lstrip_by isspace s).

(** [s.replace(c, "")] for a one-character [c]. *)
Fixpoint remove_char (c : ascii) (s : string) : string :=
  match s with
  | EmptyString => EmptyString
  | String d t => if Ascii.eqb c d then remove_char c t else String d (remove_char c t)
  end.

(** [s.split()]: the maximal runs of non-blank characters. *)
Fixpoint split_go (cur : string) (s : string) : list string :=
  match s with
  | EmptyString => if is_empty cur then [] else [cur]
  | String c t =>
      if isspace c
      then (if is_empty cur then split_go EmptyString t else cur :: split_go EmptyString t)
      else split_go (cur ++ String c EmptyString) t
  end.

Definition split (s : string) : list string := split_go EmptyString s.

(** [sep.join(l)] *)
Fixpoint join (sep : string) (l : list string) : string :=
  match l with
  | [] => EmptyString
  | [x] => x
  | x :: r => x ++ sep ++ join sep r
  end.

(** [s[:n]] for [n >= 0]. *)
Definition take (n : nat) (s : string) : string := String.substring 0 n s.

(** [s[-1]] of a non-empty string. *)
Fixpoint last_char (s : string) : option ascii :=
  match s with
  | EmptyString => None
  | String c EmptyString => Some c
  | String _ t => last_char t
  end.

(** [s[:-1]] *)
Fixpoint drop_last (s : string) : string :=
  match s with
  | EmptyString => EmptyString
  | String _ EmptyString => EmptyString
  | String c t => String c (drop_last t)
  end.

(** [all(p(c) for c in s)] *)
Fixpoint all_chars (p : ascii -> bool) (s : string) : bool :=
  match s with
  | EmptyString => true
  | String c t => p c && all_chars p t
  end.

(** [c in s] for a character [c]. *)
Fixpoint has_char (c : ascii) (s : string) : bool :=
  match s with
  | EmptyString => false
  | String d t => Ascii.eqb c d || has_char c t
  end.

(** [x in l] for a list of strings. *)
Definition mem (x : string) (l : list string) : bool :=
  existsb (String.eqb x) l.

Definition digit_char (d : Z) : ascii := ascii_of_nat (Z.to_nat (48 + d)).

Fixpoint digits_fuel (fuel : nat) (n : Z) (acc : string) : string :=
  match fuel with
  | O => acc
  | S f =>
      let acc' := String (digit_char (n mod 10)) acc in
      if n <? 10 then acc' else digits_fuel f (n / 10) acc'
  end.

(** [str(n)] of an integer. *)
Definition of_Z (n : Z) : string :=
  match n with
  | Z0 => "0"
  | Zpos _ => digits_fuel (S (Z.to_nat (Z.log2 n))) n EmptyString
  | Zneg _ => String "-" (digits_fuel (S (Z.to_nat (Z.log2 (- n)))) (- n) EmptyString)
  end.

End Str.

(** ** Python's [int(s)], [int(s, 16)] and [float(s)] *)

Module Num.

Import Str.

Definition prec : Z := 53.
Definition emax : Z := 1024.

(** Value of one character as a digit in base up to 16. *)
Definition digit_val (c : ascii) : option Z :=
  let n := code c in
  if (48 <=? n) && (n <=? 57) then Some (n - 48)
  else if (97 <=? n) && (n <=? 102) then Some (n - 87)
  else if (65 <=? n) && (n <=? 70) then Some (n - 55)
  else None.

Definition digit_in (base : Z) (c : ascii) : option Z :=
  match digit_val c with
  | Some d => if d <? base then Some d else None
  | None => None
  end.

(** Digits with single underscores between them, as the integer literal
    grammar has it: [after_digit] tells whether an underscore may come next.
    The second component counts the digits. *)
Fixpoint int_digits (base : Z) (s : string) (acc : Z) (count : Z) (after_digit : bool)
  : option (Z * Z) :=
  match s with
  | EmptyString => if after_digit then Some (acc, count) else None
  | String c t =>
      if Ascii.eqb c "_"
      then (if after_digit then int_digits base t acc count false else None)
      else match digit_in base c with
           | Some d => int_digits base t (acc * base + d) (count + 1) true
           | None => None
           end
  end.

Definition int_error (s : string) : exn :=
  ValueError ("invalid literal for int(): " ++ s).

(** The default of [sys.set_int_max_str_digits]. *)
Definition int_max_str_digits : Z := 4300.

Definition split_sign (s : string) : bool * string :=
  match s with
  | String "-" t => (true, t)
  | String "+" t => (false, t)
  | _ => (false, s)
  end.

(** [int(s)] *)
Definition py_int (s : string) : result Z :=
  let body := rstrip_by c_isspace (lstrip_by c_isspace s) in
  let '(neg, ds) := split_sign body in
  match int_digits 10 ds 0 0 false with
  | Some (v, n) =>
      if int_max_str_digits <? n
      then Raise (ValueError "Exceeds the limit for integer string conversion")
      else Ok (if neg then - v else v)
  | None => Raise (int_error s)
  end.

(** The digits of [int(s, 16)]: an optional [0x] prefix, which an
    underscore may follow. *)
Definition hex_body (ds : string) : option (Z * Z) :=
  match ds with
  | String "0" (String x t) =>
      if Ascii.eqb x "x" || Ascii.eqb x "X"
      then int_digits 16 t 0 0 true
      else int_digits 16 ds 0 0 false
  | _ => int_digits 16 ds 0 0 false
  end.

(** [int(s, 16)] *)
Definition py_int16 (s : string) : result Z :=
  let body := rstrip_by c_isspace (lstrip_by c_isspace s) in
  let '(neg, ds) := split_sign body in
  match hex_body ds with
  | Some (v, n) => if 0 <? n then Ok (if neg then - v else v) else Raise (int_error s)
  | None => Raise (int_error s)
  end.

(** *** Floats *)

Definition float_error (s : string) : exn :=
  ValueError ("could not convert string to float: " ++ s).

(** The pass of [float] that drops underscores: one is allowed only between
    two digits. *)
Fixpoint drop_underscores (prev : option ascii) (s : string) : option string :=
  let prev_digit := match prev with Some p => isdigit p | None => false end in
  let prev_us := match prev with Some p => Ascii.eqb p "_" | None => false end in
  match s with
  | EmptyString => if prev_us then None else Some EmptyString
  | String c t =>
      if Ascii.eqb c "_"
      then (if prev_digit then drop_underscores (Some c) t else None)
      else if prev_us && negb (isdigit c) then None
      else match drop_underscores (Some c) t with
           | Some r => Some (String c r)
           | None => None
           end
  end.

(** A maximal run of decimal digits: its value, its length, and the rest. *)
Fixpoint take_digits (s : string) (acc : Z) (count : Z) : Z * Z * string :=
  match s with
  | String c t =>
      if isdigit c then take_digits t (acc * 10 + (code c - 48)) (count + 1)
      else (acc, count, s)
  | EmptyString => (acc, count, s)
  end.

(** The decimal exponent part, [e[+-]digits]; the whole rest must be it. *)
Definition parse_exponent (s : string) : option Z :=
  match s with
  | EmptyString => Some 0
  | String c t =>
      if Ascii.eqb (lower_char c) "e" then
        let '(neg, ds) := split_sign t in
        let '(v, n, rest) := take_digits ds 0 0 in
        if (0 <? n) && is_empty rest then Some (if neg then - v else v) else None
      else None
  end.

(** A decimal numeral as mantissa, number of mantissa digits and power of
    ten: the numeral denotes [m * 10 ^ e]. *)
Definition parse_decimal (s : string) : option (Z * Z * Z) :=
  let '(ip, ni, r1) := take_digits s 0 0 in
  let '(m, nf, r2) :=
    match r1 with
    | String "." t => let '(m, n, r) := take_digits t ip 0 in (m, n, r)
    | _ => (ip, 0, r1)
    end in
  if 0 <? ni + nf then
    match parse_exponent r2 with
    | Some e => Some (m, ni + nf, e - nf)
    | None => None
    end
  else None.

(** The binary64 number nearest to [m * 10 ^ e] (ties to even), for [m > 0]
    written with [nd] digits.  Beyond the range of the format the result is
    known without computing the power of ten. *)
Definition round_decimal (neg : bool) (m nd e : Z) : spec_float :=
  match m with
  | Zpos p =>
      if 310 <? e then S754_infinity neg
      else if nd + e <? -330 then S754_zero neg
      else if 0 <=? e
           then binary_normalize prec emax (if neg then - (m * 10 ^ e) else m * 10 ^ e) 0 neg
           else SFdiv prec emax (S754_finite neg p 0)
                      (S754_finite false (Z.to_pos (10 ^ (- e))) 0)
  | _ => S754_zero neg
  end.

(** [float(s)] *)
Definition py_float (s : string) : result spec_float :=
  match drop_underscores None s with
  | None => Raise (float_error s)
  | Some s1 =>
      let body := rstrip_by c_isspace (lstrip_by c_isspace s1) in
      let '(neg, u) := split_sign body in
      let w := lower u in
      if String.eqb w "inf" || String.eqb w "infinity" then Ok (S754_infinity neg)
      else if String.eqb w "nan" then Ok S754_nan
      else match parse_decimal u with
           | Some (m, nd, e) => Ok (round_decimal neg m nd e)
           | None => Raise (float_error s)
           end
  end.

(** [float(n)] of an integer. *)
Definition float_of_Z (n : Z) : spec_float := binary_normalize prec emax n 0 false.

(** [x * n] for a float [x] and an integer [n]. *)
Definition float_mul_int (x : spec_float) (n : Z) : spec_float :=
  SFmul prec emax x (float_of_Z n).

(** [int(x)] of a float: truncation towards zero. *)
Definition int_of_float (x : spec_float) : result Z :=
  match x with
  | S754_zero _ => Ok 0
  | S754_nan => Raise (ValueError "cannot convert float NaN to integer")
  | S754_infinity _ => Raise (OverflowError "cannot convert float infinity to integer")
  | S754_finite s m e =>
      let a := if 0 <=? e then Zpos m * 2 ^ e else Zpos m / 2 ^ (- e) in
      Ok (if s then - a else a)
  end.

End Num.

(** ** The compact number parser *)

Definition _parse_compact_number (token : string) : result (option Z) :=
  let token := Str.remove_char "," (Str.strip token) in
  if Str.is_empty token then Ok None
  else
    let last := option_map Str.lower_char (Str.last_char token) in
    let '(multiplier, token) :=
      match last with
      | Some "k"%char => (1000, Str.drop_last token)
      | Some "m"%char => (1000000, Str.drop_last token)
      | _ => (1, token)
      end in
    except_ValueError
      (value <- Num.py_float token ;;
       n <- Num.int_of_float (Num.float_mul_int value multiplier) ;;
       Ok (Some n))
      (Ok None).

(** ** SHA-256 (FIPS 180-4), as [hashlib.sha256] computes it *)

Module SHA256.

Definition w32 (x : Z) : Z := x mod 2 ^ 32.

Definition rotr (n x : Z) : Z :=
  Z.lor (Z.shiftr x n) (w32 (Z.shiftl x (32 - n))).

Definition ch (x y z : Z) : Z := Z.lxor (Z.land x y) (Z.land (Z.lxor x 4294967295) z).
Definition maj (x y z : Z) : Z :=
  Z.lxor (Z.lxor (Z.land x y) (Z.land x z)) (Z.land y z).
Definition bsig0 (x : Z) : Z := Z.lxor (Z.lxor (rotr 2 x) (rotr 13 x)) (rotr 22 x).
Definition bsig1 (x : Z) : Z := Z.lxor (Z.lxor (rotr 6 x) (rotr 11 x)) (rotr 25 x).
Definition ssig0 (x : Z) : Z := Z.lxor (Z.lxor (rotr 7 x) (rotr 18 x)) (Z.shiftr x 3).
Definition ssig1 (x : Z) : Z := Z.lxor (Z.lxor (rotr 17 x) (rotr 19 x)) (Z.shiftr x 10).

(** The constants of the standard are not listed but computed the way the
    standard defines them, from the first primes. *)
Definition is_prime (n : nat) : bool :=
  (2 <=? n)%nat && forallb (fun d => negb (n mod d =? 0)%nat) (seq 2 (n - 2)).

Definition primes : list Z := map Z.of_nat (filter is_prime (seq 2 310)).

(** The integer cube root, one bit at a time from bit [k - 1] down. *)
Fixpoint cube_root (k : nat) (n r : Z) : Z :=
  match k with
  | O => r
  | S k' =>
      let r' := r + 2 ^ Z.of_nat k' in
      if r' * r' * r' <=? n then cube_root k' n r' else cube_root k' n r
  end.

(** The first 32 bits of the fractional parts of the cube roots of the
    first 64 primes. *)
Definition K : list Z := map (fun p => w32 (cube_root 36 (p * 2 ^ 96) 0)) primes.

(** The eight working words. *)
Record state : Type := mkState {
  ha : Z; hb : Z; hc : Z; hd : Z; he : Z; hf : Z; hg : Z; hh : Z
}.

(** The first 32 bits of the fractional part of a square root. *)
Definition root_bits (p : Z) : Z := w32 (Z.sqrt (p * 2 ^ 64)).

Definition init : state :=
  mkState (root_bits 2) (root_bits 3) (root_bits 5) (root_bits 7)
          (root_bits 11) (root_bits 13) (root_bits 17) (root_bits 19).

(** Big-endian words of a block of bytes. *)
Fixpoint words (bs : list Z) : list Z :=
  match bs with
  | b0 :: b1 :: b2 :: b3 :: r =>
      (((b0 * 256 + b1) * 256 + b2) * 256 + b3) :: words r
  | _ => []
  end.

(** Extend the sixteen words of a block to the message schedule; [w] holds
    the schedule so far, latest word first. *)
Fixpoint schedule (n : nat) (w : list Z) : list Z :=
  match n with
  | O => w
  | S n' =>
      let x := w32 (ssig1 (nth 1 w 0) + nth 6 w 0 + ssig0 (nth 14 w 0) + nth 15 w 0) in
      schedule n' (x :: w)
  end.

Definition round (s : state) (kw : Z * Z) : state :=
  let '(k, w) := kw in
  let t1 := hh s + bsig1 (he s) + ch (he s) (hf s) (hg s) + k + w in
  let t2 := bsig0 (ha s) + maj (ha s) (hb s) (hc s) in
  mkState (w32 (t1 + t2)) (ha s) (hb s) (hc s) (w32 (hd s + t1)) (he s) (hf s) (hg s).

Definition compress (h : state) (block : list Z) : state :=
  let w := rev (schedule 48 (rev (words block))) in
  let s := fold_left round (combine K w) h in
  mkState (w32 (ha h + ha s)) (w32 (hb h + hb s)) (w32 (hc h + hc s)) (w32 (hd h + hd s))
          (w32 (he h + he s)) (w32 (hf h + hf s)) (w32 (hg h + hg s)) (w32 (hh h + hh s)).

(** The message followed by [0x80], zeros, and its bit length on 8 bytes. *)
Definition pad (msg : list Z) : list Z :=
  let l := Z.of_nat (List.length msg) in
  let zeros := Z.to_nat ((55 - l) mod 64) in
  let bits := l * 8 in
  (msg ++ [128] ++ repeat 0 zeros
       ++ map (fun i => (bits / 2 ^ (8 * (7 - Z.of_nat i))) mod 256) (seq 0 8))%list.

Fixpoint process (nblocks : nat) (h : state) (bs : list Z) : state :=
  match nblocks with
  | O => h
  | S n => process n (compress h (firstn 64 bs)) (skipn 64 bs)
  end.

Definition sha256 (msg : list Z) : state :=
  let p := pad msg in
  process (List.length p / 64)%nat init p.

Definition hex_char (d : Z) : ascii :=
  if d <? 10 then ascii_of_nat (Z.to_nat (48 + d)) else ascii_of_nat (Z.to_nat (87 + d)).

(** Eight lower-case hexadecimal digits of a 32-bit word. *)
Definition hex8 (x : Z) : string :=
  let d i := hex_char ((w32 x / 16 ^ i) mod 16) in
  String (d 7) (String (d 6) (String (d 5) (String (d 4)
    (String (d 3) (String (d 2) (String (d 1) (String (d 0) EmptyString))))))).

Definition hex_of_state (s : state) : string :=
  hex8 (ha s) ++ hex8 (hb s) ++ hex8 (hc s) ++ hex8 (hd s)
    ++ hex8 (he s) ++ hex8 (hf s) ++ hex8 (hg s) ++ hex8 (hh s).

(** [s.encode("utf-8")] *)
Definition encode_utf8 (s : string) : list Z := map Str.code (list_ascii_of_string s).

(** [hashlib.sha256(s.encode("utf-8")).hexdigest()] *)
Definition hexdigest (s : string) : string := hex_of_state (sha256 (encode_utf8 s)).

End SHA256.

(** ** The parsed page *)

Module Soup.

(** A BeautifulSoup tree: text strings, strings of the other kinds
    (comments and the like, which [get_text] leaves out) and tags with their
    attributes.  The [BeautifulSoup] object itself is a tag named
    [[document]]. *)
Inductive node : Type :=
| Text (s : string)
| Comment (s : string)
| Elem (tag : string) (attrs : list (string * string)) (children : list node).

(** The node and everything below it, in document order. *)
Fixpoint flatten (n : node) : list node :=
  n :: match n with
       | Elem _ _ cs => (fix go (l : list node) : list node :=
                           match l with
                           | [] => []
                           | c :: r => (flatten c ++ go r)%list
                           end) cs
       | _ => []
       end.

(** [tag.descendants] *)
Definition descendants (n : node) : list node :=
  match n with
  | Elem _ _ cs => flat_map flatten cs
  | _ => []
  end.

Definition name (n : node) : option string :=
  match n with Elem t _ _ => Some t | _ => None end.

Fixpoint assoc (k : string) (l : list (string * string)) : option string :=
  match l with
  | [] => None
  | (k', v) :: r => if String.eqb k k' then Some v else assoc k r
  end.

(** [tag.get(k)] *)
Definition get (k : string) (n : node) : option string :=
  match n with Elem _ a _ => assoc k a | _ => None end.

(** [tag.get(k, "")] *)
Definition get_or_empty (k : string) (n : node) : string :=
  match get k n with Some v => v | None => EmptyString end.

(** [tag.get("class", [])]: the class attribute is a list of names. *)
Definition get_class (n : node) : list string :=
  match get "class" n with Some v => Str.split v | None => [] end.

Definition is_tag (t : string) (n : node) : bool :=
  match name n with Some t' => String.eqb t t' | None => false end.

Definition has_attr (k : string) (n : node) : bool :=
  match get k n with Some _ => true | None => false end.

Definition attr_is (k v : string) (n : node) : bool :=
  match get k n with Some v' => String.eqb v v' | None => false end.

Definition is_elem (n : node) : bool :=
  match n with Elem _ _ _ => true | _ => false end.

(** [tag.find_all(...)], the matching tags below [n] in document order. *)
Definition find_all (p : node -> bool) (n : node) : list node :=
  filter (fun d => is_elem d && p d) (descendants n).

(** [tag.find(...)] *)
Definition find (p : node -> bool) (n : node) : option node :=
  hd_error (find_all p n).

(** The strings [get_text] joins: the stripped, non-empty text strings
    below [n]; comments are not among them. *)
Definition stripped_strings (n : node) : list string :=
  flat_map (fun d => match d with
                     | Text s => let s' := Str.strip s in
                                 if Str.is_empty s' then [] else [s']
                     | _ => []
                     end) (descendants n).

(** [tag.get_text(sep, strip=True)] *)
Definition get_text (sep : string) (n : node) : string :=
  Str.join sep (stripped_strings n).

(** [tag.string]: the single string child, looked for through single tag
    children. *)
Fixpoint string_of (n : node) : option string :=
  match n with
  | Elem _ _ [c] =>
      match c with
      | Text s => Some s
      | Comment s => Some s
      | Elem _ _ _ => string_of c
      end
  | _ => None
  end.

End Soup.

Import Soup.

(** ** The standard library's URL functions

    [urllib.parse] is a collaborator of the scraper: [scheme_of u] is
    [urlparse(u).scheme] and [urljoin b u] is [urljoin(b, u)]; both may raise
    [ValueError].  The scraper is defined over any implementation, and
    [Cpython.urllib] below is CPython's. *)

Class Urllib : Type := {
  scheme_of : string -> result string;
  urljoin : string -> string -> result string
}.

(** ** The scraper's records *)

Record name_pair : Type := mkName {
  givenName : string;
  familyName : string
}.

Record QuoraAnswerRecord : Type := mkRecord {
  index : Z;
  qid : option Z;
  id : string;
  url : string;
  title : string;
  creationTime : string;
  answerCount : Z;
  answers : string;
  numUpvotes : option Z;
  numViews : option Z;
  profileUrl : option string;
  names : list name_pair
}.

(** The dictionary [_build_answer_dict] returns, with its five keys. *)
Record answer_dict : Type := mkAnswer {
  text : string;
  upvotes : option Z;
  views : option Z;
  profile_url : option string;
  author_name : option string
}.

Definition DEFAULT_BASE_URL : string := "https://www.quora.com".

(** ** The scraper

    Logging has no effect on what the functions return and is left out.
    [_parse_question_page] receives the parsed page and the clock reading
    [to_iso(now_utc())] instead of computing them. *)

Section Scraper.

Context {U : Urllib}.

Definition _normalize_url (url : string) : result string :=
  scheme <- scheme_of url ;;
  if Str.is_empty scheme then urljoin DEFAULT_BASE_URL url else Ok url.

Definition is_link (n : node) : bool := is_tag "a" n && has_attr "href" n.

Definition slug_marker (href : string) : bool :=
  Str.contains "/What-" href || Str.contains "/How-" href || Str.contains "/Why-" href
  || Str.contains "/Is-" href || Str.contains "/Can-" href.

(** The three guards that end an iteration with [continue]. *)
Definition skipped (href : string) : bool :=
  (Str.startswith href "http" && negb (Str.contains "quora.com" href))
  || Str.contains "/profile/" href
  || Str.contains "answer/" href.

(** The body of the loop over the links, [question_urls] being the list
    built so far. *)
Fixpoint collect_links (hrefs : list string) (question_urls : list string)
  : result (list string) :=
  match hrefs with
  | [] => Ok question_urls
  | href :: rest =>
      if skipped href then collect_links rest question_urls
      else if slug_marker href || Str.contains "/question/" href then
        full_url <- _normalize_url href ;;
        if Str.mem full_url question_urls
        then collect_links rest question_urls
        else collect_links rest (question_urls ++ [full_url])%list
      else collect_links rest question_urls
  end.

Definition link_targets (soup : node) : list string :=
  map (get_or_empty "href") (find_all is_link soup).

Definition _parse_search_results_page (soup : node) : result (list string) :=
  collect_links (link_targets soup) [].

(** *** Field extractors *)

(** The three strategies of [_extract_title]; each gives the value its
    [return] statement returns, when its guard holds. *)
Definition title_from_meta (soup : node) : option string :=
  match find (fun n => is_tag "meta" n && attr_is "property" "og:title" n) soup with
  | Some og_title =>
      let content := get_or_empty "content" og_title in
      if Str.truthy content then Some (Str.strip content) else None
  | None => None
  end.

Definition title_from_title (soup : node) : option string :=
  match find (is_tag "title") soup with
  | Some t =>
      match string_of t with
      | Some s => if Str.truthy s then Some (Str.strip s) else None
      | None => None
      end
  | None => None
  end.

Definition title_from_heading (soup : node) : option string :=
  match find (is_tag "h1") soup with
  | Some heading =>
      if Str.truthy (get_text "" heading) then Some (get_text "" heading) else None
  | None => None
  end.

Definition _extract_title (soup : node) : string :=
  match title_from_meta soup with
  | Some t => t
  | None =>
      match title_from_title soup with
      | Some t => t
      | None =>
          match title_from_heading soup with
          | Some t => t
          | None => "Quora Question"
          end
      end
  end.

(** [try: return int(s) except ValueError: pass] *)
Definition int_or_pass (s : string) : option Z :=
  match Num.py_int s with
  | Ok n => Some n
  | Raise _ => None
  end.

Definition qid_from_meta (soup : node) : option Z :=
  let meta_qid :=
    match find (fun n => is_tag "meta" n && attr_is "name" "qid" n) soup with
    | Some m => Some m
    | None => find (fun n => is_tag "meta" n && attr_is "property" "qid" n) soup
    end in
  match meta_qid with
  | Some m =>
      let content := get_or_empty "content" m in
      if Str.truthy content then int_or_pass content else None
  | None => None
  end.

Definition qid_from_data (soup : node) : option Z :=
  match find (has_attr "data-qid") soup with
  | Some qid_holder => int_or_pass (get_or_empty "data-qid" qid_holder)
  | None => None
  end.

(** The fallback of [_extract_qid]: [None] is the [except ValueError]
    branch. *)
Definition qid_from_hash (url : string) : option Z :=
  let digest := SHA256.hexdigest url in
  match Num.py_int16 (Str.take 12 digest) with
  | Ok n => Some n
  | Raise _ => None
  end.

Definition _extract_qid (soup : node) (url : string) : option Z :=
  match qid_from_meta soup with
  | Some n => Some n
  | None =>
      match qid_from_data soup with
      | Some n => Some n
      | None => qid_from_hash url
      end
  end.

(** The loop of [_extract_upvotes] and [_extract_views] over the tokens:
    [prev] is the token before the current one, if any. *)
Fixpoint scan_tokens (word : string) (prev : option string) (tokens : list string)
  : result (option Z) :=
  match tokens with
  | [] => Ok None
  | tok :: rest =>
      if Str.contains word tok then
        match prev with
        | Some maybe =>
            parsed <- _parse_compact_number maybe ;;
            match parsed with
            | Some n => Ok (Some n)
            | None => scan_tokens word (Some tok) rest
            end
        | None => scan_tokens word (Some tok) rest
        end
      else scan_tokens word (Some tok) rest
  end.

Definition _extract_upvotes (container : node) : result (option Z) :=
  let lowered := Str.lower (get_text " " container) in
  if negb (Str.contains "upvote" lowered) then Ok None
  else scan_tokens "upvote" None (Str.split lowered).

Definition _extract_views (container : node) : result (option Z) :=
  let lowered := Str.lower (get_text " " container) in
  if negb (Str.contains "view" lowered) then Ok None
  else scan_tokens "view" None (Str.split lowered).

Definition is_profile_link (n : node) : bool :=
  Str.contains "/profile/" (get_or_empty "href" n).

Definition _extract_author (container : node) : result (option string * option string) :=
  let link := find is_link container in
  let best_link :=
    match link with
    | Some l => if is_profile_link l then Some l
                else hd_error (filter is_profile_link (find_all is_link container))
    | None => hd_error (filter is_profile_link (find_all is_link container))
    end in
  match best_link with
  | None => Ok (None, None)
  | Some l =>
      full_url <- _normalize_url (get_or_empty "href" l) ;;
      let name := get_text "" l in
      Ok (Some full_url, if Str.truthy name then Some name else None)
  end.

Definition _build_answer_dict (container : node) (text : string) : result answer_dict :=
  upvotes <- _extract_upvotes container ;;
  views <- _extract_views container ;;
  pa <- _extract_author container ;;
  Ok (mkAnswer text upvotes views (fst pa) (snd pa)).

(** Heuristic 1: the tags whose [data-testid] mentions an answer. *)
Fixpoint heuristic1 (containers : list node) : result (list answer_dict) :=
  match containers with
  | [] => Ok []
  | container :: rest =>
      let testid := get_or_empty "data-testid" container in
      if Str.contains "answer" (Str.lower testid) then
        let text := get_text " " container in
        if Str.truthy text then
          a <- _build_answer_dict container text ;;
          answers <- heuristic1 rest ;;
          Ok (a :: answers)
        else heuristic1 rest
      else heuristic1 rest
  end.

(** Heuristic 2: the [div]s whose classes mention an answer. *)
Fixpoint heuristic2 (containers : list node) : result (list answer_dict) :=
  match containers with
  | [] => Ok []
  | container :: rest =>
      let class_attr := Str.lower (Str.join " " (get_class container)) in
      if Str.contains "answer" class_attr && (50 <? Str.len (get_text "" container)) then
        let text := get_text " " container in
        a <- _build_answer_dict container text ;;
        answers <- heuristic2 rest ;;
        Ok (a :: answers)
      else heuristic2 rest
  end.

(** The de-duplication loop; [seen_texts] is the set of texts met so far. *)
Fixpoint dedupe (answers : list answer_dict) (seen_texts : list string) : list answer_dict :=
  match answers with
  | [] => []
  | a :: rest =>
      let key := text a in
      if Str.mem key seen_texts then dedupe rest seen_texts
      else a :: dedupe rest (key :: seen_texts)
  end.

Definition _extract_answer_blocks (soup : node) : result (list answer_dict) :=
  answers <- heuristic1 (find_all (has_attr "data-testid") soup) ;;
  answers <- (if match answers with [] => true | _ => false end
              then heuristic2 (find_all (is_tag "div") soup)
              else Ok answers) ;;
  Ok (dedupe answers []).

Definition _build_encoded_id (qid : option Z) (answer_index : Z) : string :=
  let q := match qid with Some n => n | None => 0 end in
  let base := "Question@" ++ Str.of_Z q ++ ":" ++ Str.of_Z answer_index in
  Str.take 32 (SHA256.hexdigest base).

(** *** The page parser *)

Definition string_or_empty (o : option string) : string :=
  match o with Some s => s | None => EmptyString end.

(** The loop [for index, answer in enumerate(answers_blocks, start=1)]. *)
Fixpoint build_records (url title creation_time_iso : string) (qid : option Z)
  (answerCount : Z) (index : Z) (blocks : list answer_dict) : list QuoraAnswerRecord :=
  match blocks with
  | [] => []
  | answer :: rest =>
      mkRecord index qid (_build_encoded_id qid index) url title creation_time_iso
               answerCount (Str.strip (text answer)) (upvotes answer) (views answer)
               (profile_url answer)
               [mkName (string_or_empty (author_name answer)) EmptyString]
        :: build_records url title creation_time_iso qid answerCount (index + 1) rest
  end.

Definition _parse_question_page (soup : node) (url : string) (creation_time_iso : string)
  : result (list QuoraAnswerRecord) :=
  let title := _extract_title soup in
  let qid := _extract_qid soup url in
  answers_blocks <- _extract_answer_blocks soup ;;
  let records :=
    build_records url title creation_time_iso qid
                  (Z.of_nat (List.length answers_blocks)) 1 answers_blocks in
  match records with
  | [] =>
      let page_text := get_text " " soup in
      Ok [mkRecord 1 qid (_build_encoded_id qid 1) url title creation_time_iso
                   0 (Str.take 5000 page_text) None None None
                   [mkName EmptyString EmptyString]]
  | _ => Ok records
  end.

End Scraper.

(** ** CPython's [urllib.parse]

    [urlsplit], [urlparse], [urlunparse] and [urljoin] as CPython 3.11 has
    them, on ASCII text.  The validation of a bracketed host, which is the
    work of the [ipaddress] module, is a parameter. *)

Module Cpython.

Section Urllib.

Variable check_bracketed_netloc : string -> result unit.

Definition uses_relative : list string :=
  [""; "ftp"; "http"; "gopher"; "nntp"; "imap"; "wais"; "file"; "https"; "shttp"; "mms";
   "prospero"; "rtsp"; "rtspu"; "sftp"; "svn"; "svn+ssh"; "ws"; "wss"].

Definition uses_netloc : list string :=
  [""; "ftp"; "http"; "gopher"; "nntp"; "telnet"; "imap"; "wais"; "file"; "mms"; "https";
   "shttp"; "snews"; "prospero"; "rtsp"; "rtspu"; "rsync"; "svn"; "svn+ssh"; "sftp"; "nfs";
   "git"; "git+ssh"; "ws"; "wss"].

Definition uses_params : list string :=
  [""; "ftp"; "hdl"; "prospero"; "http"; "imap"; "https"; "shttp"; "rtsp"; "rtspu"; "sip";
   "sips"; "mms"; "sftp"; "tel"].

Definition is_alpha (c : ascii) : bool :=
  let n := Str.code c in
  ((65 <=? n) && (n <=? 90)) || ((97 <=? n) && (n <=? 122)).

Definition scheme_char (c : ascii) : bool :=
  is_alpha c || Str.isdigit c || Ascii.eqb c "+" || Ascii.eqb c "-" || Ascii.eqb c ".".

Definition c0_or_space (c : ascii) : bool := Str.code c <=? 32.

Definition unsafe_byte (c : ascii) : bool :=
  Ascii.eqb c "009" || Ascii.eqb c "013" || Ascii.eqb c "010".

Fixpoint remove_unsafe (s : string) : string :=
  match s with
  | EmptyString => EmptyString
  | String c t => if unsafe_byte c then remove_unsafe t else String c (remove_unsafe t)
  end.

(** [s.partition(c)] without the separator: the text before the first [c]
    and the text after it, when there is one. *)
Fixpoint cut (c : ascii) (s : string) : option (string * string) :=
  match s with
  | EmptyString => None
  | String d t =>
      if Ascii.eqb c d then Some (EmptyString, t)
      else match cut c t with
           | Some (a, b) => Some (String d a, b)
           | None => None
           end
  end.

(** The same at the last [c], the separator staying with the first part. *)
Fixpoint rcut (c : ascii) (s : string) : option (string * string) :=
  match s with
  | EmptyString => None
  | String d t =>
      match rcut c t with
      | Some (a, b) => Some (String d a, b)
      | None => if Ascii.eqb c d then Some (String d EmptyString, t) else None
      end
  end.

(** The longest prefix without a delimiter [/], [?] or [#], and the rest. *)
Fixpoint _splitnetloc (s : string) : string * string :=
  match s with
  | EmptyString => (EmptyString, EmptyString)
  | String c t =>
      if Ascii.eqb c "/" || Ascii.eqb c "?" || Ascii.eqb c "#" then (EmptyString, s)
      else let '(a, b) := _splitnetloc t in (String c a, b)
  end.

Record SplitResult : Type := mkSplit {
  sr_scheme : string;
  sr_netloc : string;
  sr_path : string;
  sr_query : string;
  sr_fragment : string
}.

(** The scheme, when the text before the first colon is one. *)
Definition split_scheme (url scheme : string) : string * string :=
  match cut ":" url with
  | Some (String c0 p, rest) =>
      if is_alpha c0 && Str.all_chars scheme_char (String c0 p)
      then (Str.lower (String c0 p), rest)
      else (scheme, url)
  | _ => (scheme, url)
  end.

Definition split_authority (url : string) : result (string * string) :=
  match url with
  | String "/" (String "/" after) =>
      let '(netloc, rest) := _splitnetloc after in
      let lb := Str.has_char "[" netloc in
      let rb := Str.has_char "]" netloc in
      _ <- (if (lb && negb rb) || (rb && negb lb) then Raise (ValueError "Invalid IPv6 URL")
            else if lb && rb then check_bracketed_netloc netloc
            else Ok tt) ;;
      Ok (netloc, rest)
  | _ => Ok (EmptyString, url)
  end.

Definition urlsplit (url scheme : string) : result SplitResult :=
  let url := remove_unsafe (Str.lstrip_by c0_or_space url) in
  let scheme := remove_unsafe (Str.rstrip_by c0_or_space (Str.lstrip_by c0_or_space scheme)) in
  let '(scheme, url) := split_scheme url scheme in
  nu <- split_authority url ;;
  let '(netloc, url) := nu in
  let '(url, fragment) :=
    match cut "#" url with Some (a, b) => (a, b) | None => (url, EmptyString) end in
  let '(url, query) :=
    match cut "?" url with Some (a, b) => (a, b) | None => (url, EmptyString) end in
  Ok (mkSplit scheme netloc url query fragment).

Record ParseResult : Type := mkParse {
  pr_scheme : string;
  pr_netloc : string;
  pr_path : string;
  pr_params : string;
  pr_query : string;
  pr_fragment : string
}.

(** The parameters follow the first semicolon of the last path segment. *)
Definition _splitparams (url : string) : string * string :=
  match rcut "/" url with
  | Some (dir, seg) =>
      match cut ";" seg with
      | Some (a, b) => (dir ++ a, b)
      | None => (url, EmptyString)
      end
  | None =>
      match cut ";" url with
      | Some (a, b) => (a, b)
      | None => (url, EmptyString)
      end
  end.

Definition urlparse (url scheme : string) : result ParseResult :=
  s <- urlsplit url scheme ;;
  let '(path, params) :=
    if Str.mem (sr_scheme s) uses_params && Str.has_char ";" (sr_path s)
    then _splitparams (sr_path s)
    else (sr_path s, EmptyString) in
  Ok (mkParse (sr_scheme s) (sr_netloc s) path params (sr_query s) (sr_fragment s)).

Definition urlunsplit (scheme netloc url query fragment : string) : string :=
  let url :=
    if Str.truthy netloc
       || (Str.truthy scheme && Str.mem scheme uses_netloc && negb (Str.startswith url "//"))
    then "//" ++ netloc ++ (if Str.truthy url && negb (Str.startswith url "/")
                            then "/" ++ url else url)
    else url in
  let url := if Str.truthy scheme then scheme ++ ":" ++ url else url in
  let url := if Str.truthy query then url ++ "?" ++ query else url in
  if Str.truthy fragment then url ++ "#" ++ fragment else url.

Definition urlunparse (scheme netloc url params query fragment : string) : string :=
  let url := if Str.truthy params then url ++ ";" ++ params else url in
  urlunsplit scheme netloc url query fragment.

(** [s.split(c)] *)
Fixpoint split_on (c : ascii) (cur : string) (s : string) : list string :=
  match s with
  | EmptyString => [cur]
  | String d t =>
      if Ascii.eqb c d then cur :: split_on c EmptyString t
      else split_on c (cur ++ String d EmptyString) t
  end.

(** [segments[1:-1] = filter(None, segments[1:-1])] *)
Definition drop_empty_inner (segments : list string) : list string :=
  match segments with
  | first :: rest =>
      match rev rest with
      | last :: mid => (first :: filter Str.truthy (rev mid) ++ [last])%list
      | [] => segments
      end
  | [] => []
  end.

(** The loop that resolves the dot segments. *)
Fixpoint resolve (segments : list string) (resolved_path : list string) : list string :=
  match segments with
  | [] => resolved_path
  | seg :: rest =>
      if String.eqb seg ".." then resolve rest (removelast resolved_path)
      else if String.eqb seg "." then resolve rest resolved_path
      else resolve rest (resolved_path ++ [seg])%list
  end.

Definition py_urljoin (base url : string) : result string :=
  if Str.is_empty base then Ok url
  else if Str.is_empty url then Ok base
  else
    b <- urlparse base EmptyString ;;
    u <- urlparse url (pr_scheme b) ;;
    let scheme := pr_scheme u in
    if negb (String.eqb scheme (pr_scheme b)) || negb (Str.mem scheme uses_relative)
    then Ok url
    else if Str.mem scheme uses_netloc && Str.truthy (pr_netloc u)
    then Ok (urlunparse scheme (pr_netloc u) (pr_path u) (pr_params u)
                        (pr_query u) (pr_fragment u))
    else
      let netloc := if Str.mem scheme uses_netloc then pr_netloc b else pr_netloc u in
      if Str.is_empty (pr_path u) && Str.is_empty (pr_params u)
      then
        let query := if Str.is_empty (pr_query u) then pr_query b else pr_query u in
        Ok (urlunparse scheme netloc (pr_path b) (pr_params b) query (pr_fragment u))
      else
        let base_parts := split_on "/" EmptyString (pr_path b) in
        let base_parts :=
          if Str.truthy (last base_parts EmptyString) then removelast base_parts
          else base_parts in
        let segments :=
          if Str.startswith (pr_path u) "/" then split_on "/" EmptyString (pr_path u)
          else drop_empty_inner (base_parts ++ split_on "/" EmptyString (pr_path u))%list in
        let resolved_path := resolve segments [] in
        let final := last segments EmptyString in
        let resolved_path :=
          if String.eqb final "." || String.eqb final ".."
          then (resolved_path ++ [EmptyString])%list else resolved_path in
        let joined := Str.join "/" resolved_path in
        Ok (urlunparse scheme netloc (if Str.is_empty joined then "/" else joined)
                       (pr_params u) (pr_query u) (pr_fragment u)).

Definition py_scheme_of (url : string) : result string :=
  p <- urlparse url EmptyString ;;
  Ok (pr_scheme p).

End Urllib.

Definition urllib (check_bracketed_netloc : string -> result unit) : Urllib :=
  {| scheme_of := py_scheme_of check_bracketed_netloc;
     urljoin := py_urljoin check_bracketed_netloc |}.

End Cpython.

(** ** The exporter

    [export_data] talks to the operating system, the clock, the logger and
    the serialisers of [json] and [pandas].  It is embedded as a tree of
    such requests: a request carries what is asked, and its continuation
    receives what came back, a value or the exception raised. *)

Module Exporter.

Section ExportData.

(** A record as the exporter receives it (a dictionary), a data frame, and
    [pd.DataFrame(records)]. *)
Variable Dict : Type.
Variable DataFrame : Type.
Variable pd_DataFrame : list Dict -> DataFrame.

Inductive event : Type -> Type :=
| Makedirs (path : string) : event unit
    (** [os.makedirs(path, exist_ok=True)] *)
| Timestamp : event string
    (** [timestamp_for_filename(now_utc())] *)
| LogInfo (msg : string) : event unit
| LogError (msg : string) : event unit
| JsonDump (records : list Dict) (path : string) : event unit
    (** [open(path, "w")] and [json.dump] into the file *)
| ToCsv (df : DataFrame) (path : string) : event unit
| ToExcel (df : DataFrame) (path : string) : event unit
| ToHtml (df : DataFrame) (path : string) : event unit.

Inductive io (A : Type) : Type :=
| Ret (a : A)
| Throw (e : exn)
| Vis (X : Type) (ev : event X) (k : result X -> io A).

Arguments Ret {A} a.
Arguments Throw {A} e.
Arguments Vis {A X} ev k.

Fixpoint bind {A B : Type} (m : io A) (f : A -> io B) : io B :=
  match m with
  | Ret a => f a
  | Throw e => Throw e
  | Vis ev k => Vis ev (fun r => bind (k r) f)
  end.

(** [try: m except Exception as exc: h exc] *)
Fixpoint catch {A : Type} (m : io A) (h : exn -> io A) : io A :=
  match m with
  | Ret a => Ret a
  | Throw e => h e
  | Vis ev k => Vis ev (fun r => catch (k r) h)
  end.

(** Perform one request; an exception it raises propagates. *)
Definition call {X : Type} (ev : event X) : io X :=
  Vis ev (fun r => match r with Ok x => Ret x | Raise e => Throw e end).

Notation "x <~ m ;; k" := (bind m (fun x => k))
  (at level 61, m at next level, right associativity).

Definition describe (e : exn) : string :=
  match e with
  | ValueError m => m
  | OverflowError m => m
  | KeyError k => k
  | OSError m => m
  end.

Definition _ensure_dir (path : string) : io unit := call (Makedirs path).

Definition _export_json (records : list Dict) (path : string) : io unit :=
  catch (call (JsonDump records path))
        (fun exc =>
           _ <~ call (LogError ("Failed to export JSON to " ++ path ++ ": " ++ describe exc)) ;;
           Throw exc).

Definition _export_csv (df : DataFrame) (path : string) : io unit :=
  catch (call (ToCsv df path))
        (fun exc =>
           _ <~ call (LogError ("Failed to export CSV to " ++ path ++ ": " ++ describe exc)) ;;
           Throw exc).

Definition _export_excel (df : DataFrame) (path : string) : io unit :=
  catch (call (ToExcel df path))
        (fun exc =>
           _ <~ call (LogError ("Failed to export Excel to " ++ path ++ ": " ++ describe exc)) ;;
           Throw exc).

Definition _export_html (df : DataFrame) (path : string) : io unit :=
  catch (call (ToHtml df path))
        (fun exc =>
           _ <~ call (LogError ("Failed to export HTML to " ++ path ++ ": " ++ describe exc)) ;;
           Throw exc).

(** The set literal of the validation. *)
Definition supported_formats : list string := ["json"; "csv"; "excel"; "html"].

(** The dictionary literal that maps a format to its extension. *)
Definition extensions : list (string * string) :=
  [("json", "json"); ("csv", "csv"); ("excel", "xlsx"); ("html", "html")].

(** [os.path.join(a, b)] on a POSIX system. *)
Definition os_path_join (a b : string) : string :=
  if Str.startswith b "/" then b
  else if Str.is_empty a || Ascii.eqb (match Str.last_char a with Some c => c | None => "/"%char end) "/"
       then a ++ b
       else a ++ "/" ++ b.

Definition export_data (records : list Dict) (output_dir base_filename fmt : string)
  : io string :=
  if negb (Str.mem fmt supported_formats)
  then Throw (ValueError ("Unsupported format: " ++ fmt))
  else
    _ <~ _ensure_dir output_dir ;;
    ts <~ call Timestamp ;;
    match Soup.assoc fmt extensions with
    | None => Throw (KeyError fmt)
    | Some ext =>
        let filename := base_filename ++ "_" ++ ts ++ "." ++ ext in
        let path := os_path_join output_dir filename in
        _ <~ call (LogInfo ("Exporting " ++ Str.of_Z (Z.of_nat (List.length records))
                              ++ " records as " ++ fmt ++ " to " ++ path)) ;;
        _ <~ (if String.eqb fmt "json" then _export_json records path
              else
                let df := pd_DataFrame records in
                if String.eqb fmt "csv" then _export_csv df path
                else if String.eqb fmt "excel" then _export_excel df path
                else if String.eqb fmt "html" then _export_html df path
                else Ret tt) ;;
        Ret path
    end.

(** *** Running a tree against the outside world *)

(** What a run asked of the world, in order. *)
Inductive request : Type :=
| Asked (X : Type) (ev : event X).

Section Run.

Variable World : Type.
Variable handle : forall X : Type, event X -> World -> result X * World.

Fixpoint run {A : Type} (m : io A) (w : World) : result A * World * list request :=
  match m with
  | Ret a => (Ok a, w, [])
  | Throw e => (Raise e, w, [])
  | Vis ev k =>
      let '(r, w') := handle _ ev w in
      let '(out, w'', asked) := run (k r) w' in
      (out, w'', Asked _ ev :: asked)
  end.

End Run.

(** *** A file system where every request succeeds *)

Inductive content : Type :=
| JsonOf (records : list Dict)
| CsvOf (df : DataFrame)
| ExcelOf (df : DataFrame)
| HtmlOf (df : DataFrame).

Record world : Type := mkWorld {
  directories : list string;
  files : list (string * content);
  clock : string;
  journal : list string
}.

Definition serve (X : Type) (ev : event X) (w : world) : result X * world :=
  match ev in event T return result T * world with
  | Makedirs path =>
      (Ok tt, mkWorld (path :: directories w) (files w) (clock w) (journal w))
  | Timestamp => (Ok (clock w), w)
  | LogInfo msg => (Ok tt, mkWorld (directories w) (files w) (clock w) (msg :: journal w))
  | LogError msg => (Ok tt, mkWorld (directories w) (files w) (clock w) (msg :: journal w))
  | JsonDump records path =>
      (Ok tt, mkWorld (directories w) ((path, JsonOf records) :: files w) (clock w) (journal w))
  | ToCsv df path =>
      (Ok tt, mkWorld (directories w) ((path, CsvOf df) :: files w) (clock w) (journal w))
  | ToExcel df path =>
      (Ok tt, mkWorld (directories w) ((path, ExcelOf df) :: files w) (clock w) (journal w))
  | ToHtml df path =>
      (Ok tt, mkWorld (directories w) ((path, HtmlOf df) :: files w) (clock w) (journal w))
  end.

(** [s.endswith(suffix)] *)
Fixpoint endswith (s suffix : string) : bool :=
  String.eqb s suffix ||
  match s with
  | EmptyString => false
  | String _ t => endswith t suffix
  end.

End ExportData.

Arguments Ret {Dict DataFrame A} a.
Arguments Throw {Dict DataFrame A} e.
Arguments Vis {Dict DataFrame A X} ev k.
Arguments Makedirs {Dict DataFrame} path.
Arguments Timestamp {Dict DataFrame}.
Arguments LogInfo {Dict DataFrame} msg.
Arguments LogError {Dict DataFrame} msg.
Arguments JsonDump {Dict DataFrame} records path.
Arguments ToCsv {Dict DataFrame} df path.
Arguments ToExcel {Dict DataFrame} df path.
Arguments ToHtml {Dict DataFrame} df path.
Arguments Asked {Dict DataFrame X} ev.
Arguments JsonOf {Dict DataFrame} records.
Arguments CsvOf {Dict DataFrame} df.
Arguments ExcelOf {Dict DataFrame} df.
Arguments HtmlOf {Dict DataFrame} df.
Arguments export_data {Dict DataFrame} pd_DataFrame records output_dir base_filename fmt.
Arguments run {Dict DataFrame World} handle {A} m w.
Arguments serve {Dict DataFrame} X ev w.
Arguments directories {Dict DataFrame} w.
Arguments files {Dict DataFrame} w.
Arguments clock {Dict DataFrame} w.
Arguments journal {Dict DataFrame} w.

End Exporter.

(** ** The scraper's public interface

    [scrape_url] and the two scraping paths fetch pages and read the clock.
    They are trees of requests, like the exporter: [SessionGet url] stands
    for [session.get(url, timeout=...)], [raise_for_status()] and
    [resp.text], and answers the body or the [RequestException] raised;
    [ClockIso] is [to_iso(now_utc())].  Any other exception comes back as
    [Raise].  The HTML parser and the parts of a parsed URL that
    [_is_search_url] reads are collaborators. *)

Class Web : Type := {
  BeautifulSoup : string -> node;
  path_and_query : string -> result (string * string)
}.

(** The values [asdict] builds. *)
Inductive pyvalue : Type :=
| PNone
| PInt (n : Z)
| PStr (s : string)
| PList (l : list pyvalue)
| PDict (d : list (string * pyvalue)).

Definition of_option {A : Type} (f : A -> pyvalue) (o : option A) : pyvalue :=
  match o with Some a => f a | None => PNone end.

Definition name_to_dict (n : name_pair) : pyvalue :=
  PDict [("givenName", PStr (givenName n)); ("familyName", PStr (familyName n))].

(** [QuoraAnswerRecord.to_dict] *)
Definition to_dict (r : QuoraAnswerRecord) : list (string * pyvalue) :=
  [("index", PInt (index r));
   ("qid", of_option PInt (qid r));
   ("id", PStr (id r));
   ("url", PStr (url r));
   ("title", PStr (title r));
   ("creationTime", PStr (creationTime r));
   ("answerCount", PInt (answerCount r));
   ("answers", PStr (answers r));
   ("numUpvotes", of_option PInt (numUpvotes r));
   ("numViews", of_option PInt (numViews r));
   ("profileUrl", of_option PStr (profileUrl r));
   ("names", PList (map name_to_dict (names r)))].

Module Scrape.

Inductive response : Type :=
| Body (text : string)
| RequestException (msg : string).

Inductive event : Type -> Type :=
| SessionGet (url : string) : event response
| ClockIso : event string.

Inductive io (A : Type) : Type :=
| Ret (a : A)
| Throw (e : exn)
| Vis (X : Type) (ev : event X) (k : result X -> io A).

Arguments Ret {A} a.
Arguments Throw {A} e.
Arguments Vis {A X} ev k.

Fixpoint bind {A B : Type} (m : io A) (f : A -> io B) : io B :=
  match m with
  | Ret a => f a
  | Throw e => Throw e
  | Vis ev k => Vis ev (fun r => bind (k r) f)
  end.

Definition call {X : Type} (ev : event X) : io X :=
  Vis ev (fun r => match r with Ok x => Ret x | Raise e => Throw e end).

(** A computation without requests. *)
Definition lift {A : Type} (m : result A) : io A :=
  match m with Ok a => Ret a | Raise e => Throw e end.

Notation "x <~ m ;; k" := (bind m (fun x => k))
  (at level 61, m at next level, right associativity).

Section Interface.

Context {U : Urllib} {W : Web}.

Definition _is_search_url (url : string) : result bool :=
  parsed <- path_and_query url ;;
  if Str.contains "search" (fst parsed) then Ok true
  else if Str.contains "q=" (snd parsed) then Ok true
  else Ok false.

(** A [RequestException] is logged and becomes [None]. *)
Definition _get (url : string) : io (option string) :=
  Vis (SessionGet url)
      (fun r => match r with
                | Ok (Body text) => Ret (Some text)
                | Ok (RequestException _) => Ret None
                | Raise e => Throw e
                end).

(** [_parse_question_page] with its reading of the clock, which comes after
    the answer blocks are located. *)
Definition parse_question_page (html url : string) : io (list QuoraAnswerRecord) :=
  let soup := BeautifulSoup html in
  match _extract_answer_blocks soup with
  | Raise e => Throw e
  | Ok _ =>
      creation_time_iso <~ call ClockIso ;;
      lift (_parse_question_page soup url creation_time_iso)
  end.

Definition _scrape_question (url : string) : io (list QuoraAnswerRecord) :=
  normalized_url <~ lift (_normalize_url url) ;;
  html <~ _get normalized_url ;;
  match html with
  | None => Ret []
  | Some html => parse_question_page html normalized_url
  end.

(** The loop [for q_index, q_url in enumerate(question_urls, start=1)]. *)
Fixpoint scrape_each (question_urls : list string) : io (list QuoraAnswerRecord) :=
  match question_urls with
  | [] => Ret []
  | q_url :: rest =>
      found <~ _scrape_question q_url ;;
      records <~ scrape_each rest ;;
      Ret (found ++ records)%list
  end.

(** [question_urls[: max(limit_per_search, 0)]] *)
Definition limited (limit_per_search : option Z) (question_urls : list string) : list string :=
  match limit_per_search with
  | Some n => firstn (Z.to_nat (Z.max n 0)) question_urls
  | None => question_urls
  end.

Definition _scrape_search (url : string) (limit_per_search : option Z)
  : io (list QuoraAnswerRecord) :=
  html <~ _get url ;;
  match html with
  | None => Ret []
  | Some html =>
      question_urls <~ lift (_parse_search_results_page (BeautifulSoup html)) ;;
      scrape_each (limited limit_per_search question_urls)
  end.

Definition scrape_url (url : string) (limit_per_search : option Z)
  : io (list (list (string * pyvalue))) :=
  is_search <~ lift (_is_search_url url) ;;
  if is_search
  then records <~ _scrape_search url limit_per_search ;; Ret (map to_dict records)
  else records <~ _scrape_question url ;; Ret (map to_dict records).

End Interface.

(** *** Running against a web *)

Inductive request : Type :=
| Asked (X : Type) (ev : event X).

Arguments Asked {X} ev.

Section Run.

Variable World : Type.
Variable handle : forall X : Type, event X -> World -> result X * World.

Fixpoint run {A : Type} (m : io A) (w : World) : result A * World * list request :=
  match m with
  | Ret a => (Ok a, w, [])
  | Throw e => (Raise e, w, [])
  | Vis ev k =>
      let '(r, w') := handle _ ev w in
      let '(out, w'', asked) := run (k r) w' in
      (out, w'', Asked ev :: asked)
  end.

End Run.

Arguments run {World} handle {A} m w.

(** The URLs a run fetched, in order. *)
Fixpoint fetched (asked : list request) : list string :=
  match asked with
  | [] => []
  | Asked ev :: rest =>
      match ev with
      | SessionGet url => url :: fetched rest
      | ClockIso => fetched rest
      end
  end.

(** A web whose answers depend on the URL alone, with a clock that
    stands still. *)
Definition site (pages : string -> response) (now : string)
  (X : Type) (ev : event X) (w : unit) : result X * unit :=
  match ev in event T return result T * unit with
  | SessionGet url => (Ok (pages url), w)
  | ClockIso => (Ok now, w)
  end.

End Scrape.

(** [urlparse(url).path] and [.query] in CPython, with the HTML parser
    given. *)
Definition cpython_web (parser : string -> node) : Web :=
  {| BeautifulSoup := parser;
     path_and_query := fun url =>
       p <- Cpython.urlparse (fun _ => Raise (ValueError "invalid bracketed host"))
                             url EmptyString ;;
       Ok (Cpython.pr_path p, Cpython.pr_query p) |}.

(** * Reference definitions and sample pages *)

(** The integer that a string of hexadecimal characters denotes in base
    16, most significant digit first (a character that is no digit counts
    as zero). *)
Fixpoint base16_value_from (acc : Z) (s : string) : Z :=
  match s with
  | EmptyString => acc
  | String c t =>
      base16_value_from (acc * 16 + match Num.digit_val c with Some d => d | None => 0 end) t
  end.

Definition base16_value (s : string) : Z := base16_value_from 0 s.

Definition is_hex (c : ascii) : bool :=
  match Num.digit_val c with Some _ => true | None => false end.

(** The page carries no question-id signal: no [meta] tag named or typed
    [qid], and no tag with a [data-qid] attribute. *)
Definition no_qid_signal (soup : node) : Prop :=
  find (fun n => is_tag "meta" n && attr_is "name" "qid" n) soup = None
  /\ find (fun n => is_tag "meta" n && attr_is "property" "qid" n) soup = None
  /\ find (has_attr "data-qid") soup = None.

(** CPython's [urllib], with a check of bracketed hosts that accepts none;
    no page below has a bracket in a link. *)
Definition cpython : Urllib :=
  Cpython.urllib (fun _ => Raise (ValueError "invalid bracketed host")).

(** The rejection rule in the words of the specification: an absolute URL
    (one with a scheme) whose host does not contain the site's domain, or a
    target that contains [/profile/] or [answer/]. *)
Definition rejected_as_specified (href : string) : bool :=
  let cross_site :=
    match Cpython.urlparse (fun _ => Raise (ValueError "invalid bracketed host"))
                           href EmptyString with
    | Ok p => Str.truthy (Cpython.pr_scheme p)
              && negb (Str.contains "quora.com" (Cpython.pr_netloc p))
    | Raise _ => false
    end in
  cross_site || Str.contains "/profile/" href || Str.contains "answer/" href.

Definition page_of (body : list node) : node :=
  Elem "[document]" [] [Elem "html" [] [Elem "head" [] []; Elem "body" [] body]].

Definition link (href label : string) : node :=
  Elem "a" [("href", href)] [Text label].

Definition blank_title_page : node :=
  Elem "[document]" []
    [Elem "html" []
       [Elem "head" []
          [Elem "meta" [("property", "og:title"); ("content", " ")] [];
           Elem "title" [] [Text "What is AI? - Quora"]];
        Elem "body" [] [Elem "h1" [] [Text "What is AI?"]]]].

(** A results page with the five links of the specification's example. *)
Definition results_page : node :=
  page_of
    [Elem "div" [("class", "results")]
       [link "/profile/alice" "Alice";
        Elem "div" [] [link "/What-is-AI" "What is AI?"];
        link "/answer/123" "An answer";
        link "https://other.com/x" "Elsewhere";
        Elem "span" [] [link "/question/456-foo" "Foo"]]].

(** A results page with a link to another site whose path mentions the
    site's domain. *)
Definition cross_site_page : node :=
  page_of [link "https://other.com/What-is-quora.com" "Elsewhere"].

(** A results page where a scheme-relative link and an absolute link lead
    to the same address on another site. *)
Definition scheme_relative_page : node :=
  page_of [link "//other.com/What-x" "first"; link "https://other.com/What-x" "second"].

(** A question page with two answers. *)
Definition two_answers_page : node :=
  page_of
    [Elem "h1" [] [Text "What is AI?"];
     Elem "div" [("data-testid", "answer-card")]
       [link "/profile/Alice-A" "Alice A"; Text " It is a field of study. "; Text "1.2k upvotes"];
     Elem "div" [("data-testid", "Answer_2")]
       [Text "Machines that learn."; Text "452 views"]].

Definition two_answers_blocks : list answer_dict :=
  [mkAnswer "Alice A It is a field of study. 1.2k upvotes" (Some 1200) None
            (Some "https://www.quora.com/profile/Alice-A") (Some "Alice A");
   mkAnswer "Machines that learn. 452 views" None (Some 452) None None].

(** A question page whose answer speaks of infinitely many upvotes. *)
Definition inf_upvotes_page : node :=
  page_of [Elem "div" [("data-testid", "answer")] [Text "This deserves inf upvotes"]].

(** A question page where the locator finds nothing. *)
Definition no_answers_page : node :=
  page_of [Elem "h1" [] [Text "What is AI?"]; Elem "p" [] [Text "  Nothing here yet.  "]].

(** A string without blank characters at its ends. *)
Definition trimmed (s : string) : bool :=
  match s, Str.last_char s with
  | String c _, Some d => negb (Str.isspace c) && negb (Str.isspace d)
  | _, _ => true
  end.



(** What is written for a format: its extension and the rendering. *)
Definition renderings {Dict DataFrame : Type} (pd_DataFrame : list Dict -> DataFrame)
  (records : list Dict) : list (string * (string * Exporter.content Dict DataFrame)) :=
  [("json", ("json", Exporter.JsonOf records));
   ("csv", ("csv", Exporter.CsvOf (pd_DataFrame records)));
   ("excel", ("xlsx", Exporter.ExcelOf (pd_DataFrame records)));
   ("html", ("html", Exporter.HtmlOf (pd_DataFrame records)))].

(** The records of one question URL on a web whose answers depend on the
    URL alone: none when the fetch fails. *)
Definition page_records {U : Urllib} {W : Web}
  (pages : string -> Scrape.response) (now : string) (url : string)
  : result (list QuoraAnswerRecord) :=
  normalized_url <- _normalize_url url ;;
  match pages normalized_url with
  | Scrape.RequestException _ => Ok []
  | Scrape.Body html => _parse_question_page (BeautifulSoup html) normalized_url now
  end.

(** The results for a list of URLs, one after the other, up to the first
    exception. *)
Fixpoint concat_results {A : Type} (f : string -> result (list A)) (urls : list string)
  : result (list A) :=
  match urls with
  | [] => Ok []
  | u :: rest =>
      found <- f u ;;
      more <- concat_results f rest ;;
      Ok (found ++ more)%list
  end.

(** A world that refuses every request. *)
Definition refusing {Dict DataFrame : Type} (X : Type)
  (ev : Exporter.event Dict DataFrame X) (w : unit) : result X * unit :=
  (Raise (OSError "permission denied"), w).

(** A results page with a link that [urlparse] rejects. *)
Definition bad_bracket_page : node :=
  page_of [link "/What-is-AI" "fine"; link "//[/What-x" "broken"].

(** An HTML parser for three page sources. *)
Definition sample_parser (html : string) : node :=
  if String.eqb html "RESULTS" then results_page
  else if String.eqb html "TWO" then two_answers_page
  else if String.eqb html "INF" then inf_upvotes_page
  else no_answers_page.

Definition sample_web : Web := cpython_web sample_parser.

(** A small site: a results page, one question with two answers, and
    nothing else. *)
Definition sample_site (url : string) : Scrape.response :=
  if String.eqb url "https://www.quora.com/search?q=AI" then Scrape.Body "RESULTS"
  else if String.eqb url "https://www.quora.com/What-is-AI" then Scrape.Body "TWO"
  else if String.eqb url "https://www.quora.com/What-is-inf" then Scrape.Body "INF"
  else Scrape.RequestException "404 Client Error".

Definition sample_url : string := "https://www.quora.com/What-is-AI".
Definition sample_time : string := "2024-01-01T00:00:00+00:00".

(** The records of [two_answers_page]. *)
Definition two_answers_records : list QuoraAnswerRecord :=
  Eval vm_compute in
    match @_parse_question_page cpython two_answers_page sample_url sample_time with
    | Ok records => records
    | Raise _ => []
    end.

(** The exception of the conversion of an infinite float. *)
Definition overflow : exn := OverflowError "cannot convert float infinity to integer".

(** A block with a non-empty text without blanks at its ends. *)
Definition good (a : answer_dict) : Prop :=
  text a <> EmptyString /\ trimmed (text a) = true.

(** * Properties *)

(** ** Strings *)

(** Case analysis on the eight bits of a character. *)
Ltac each_char c := destruct c as [[] [] [] [] [] [] [] []].

Lemma substring_0_length (n : nat) (s : string) :
  String.length (String.substring 0 n s) = Nat.min n (String.length s).
Proof.
  revert s. induction n as [|n IH]; intros s.
  - destruct s; reflexivity.
  - destruct s as [|c s]; simpl; [reflexivity|]. now rewrite IH.
Qed.

Lemma take_length_le (n : nat) (s : string) : (String.length (Str.take n s) <= n)%nat.
Proof. unfold Str.take. rewrite substring_0_length. apply Nat.le_min_l. Qed.

(** ** Membership *)

Lemma mem_In (x : string) (l : list string) : Str.mem x l = true <-> In x l.
Proof.
  unfold Str.mem. rewrite existsb_exists. split.
  - intros [y [Hy He]]. apply String.eqb_eq in He. now subst.
  - intros H. exists x. split; [assumption | apply String.eqb_refl].
Qed.

Lemma mem_not_In (x : string) (l : list string) : Str.mem x l = false <-> ~ In x l.
Proof.
  rewrite <- mem_In. destruct (Str.mem x l); split; intros H;
    congruence || (try (now elim H)).
Qed.

(** ** The compact number parser *)

Example compact_1_2k : _parse_compact_number "1.2k" = Ok (Some 1200).
Proof. vm_compute. reflexivity. Qed.

Example compact_3m : _parse_compact_number "3m" = Ok (Some 3000000).
Proof. vm_compute. reflexivity. Qed.

Example compact_452 : _parse_compact_number "452" = Ok (Some 452).
Proof. vm_compute. reflexivity. Qed.

Example compact_empty : _parse_compact_number "" = Ok None.
Proof. reflexivity. Qed.

Example compact_abc : _parse_compact_number "abc" = Ok None.
Proof. vm_compute. reflexivity. Qed.

(** The product is computed in binary64 and then truncated. *)
Example compact_1_001k : _parse_compact_number "1.001k" = Ok (Some 1000).
Proof. vm_compute. reflexivity. Qed.

(** A token [float] does not accept gives absence: the [ValueError] is the
    one the [except] clause names. *)
Lemma compact_float_rejects (token : string) :
  let t := Str.remove_char "," (Str.strip token) in
  let body := match option_map Str.lower_char (Str.last_char t) with
              | Some "k"%char | Some "m"%char => Str.drop_last t
              | _ => t
              end in
  is_ok (Num.py_float body) = false ->
  _parse_compact_number token = Ok None.
Proof.
  intros t body H. unfold _parse_compact_number. fold t.
  destruct (Str.is_empty t); [reflexivity|].
  assert (Hf : exists m, Num.py_float body = Raise (ValueError m)).
  { unfold Num.py_float in *.
    destruct (Num.drop_underscores None body); [|eexists; reflexivity].
    destruct (Num.split_sign _) as [neg u].
    destruct (_ || _); [discriminate|].
    destruct (String.eqb _ "nan"); [discriminate|].
    destruct (Num.parse_decimal u) as [[[m nd] e]|]; [discriminate|].
    eexists; reflexivity. }
  destruct Hf as [m Hf]. subst body.
  destruct (option_map Str.lower_char (Str.last_char t)) as [c|];
    [|rewrite Hf; reflexivity].
  each_char c; rewrite Hf; reflexivity.
Qed.

(** [float] raises nothing but [ValueError]. *)
Lemma py_float_raises_ValueError (s : string) (e : exn) :
  Num.py_float s = Raise e -> exists msg, e = ValueError msg.
Proof.
  unfold Num.py_float.
  destruct (Num.drop_underscores None s); [|intros [= <-]; eexists; reflexivity].
  destruct (Num.split_sign _) as [neg u].
  destruct (_ || _); [discriminate|].
  destruct (String.eqb _ "nan"); [discriminate|].
  destruct (Num.parse_decimal u) as [[[m nd] e']|]; [discriminate|].
  intros [= <-]. eexists; reflexivity.
Qed.

(** X7: The compact number parser returns, or raises [OverflowError]; it raises
    when the product is an infinite float. *)
Lemma compact_number_outcomes (token : string) :
  (exists o : option Z, _parse_compact_number token = Ok o)
  \/ _parse_compact_number token
     = Raise (OverflowError "cannot convert float infinity to integer").
Proof.
  unfold _parse_compact_number.
  destruct (Str.is_empty _); [left; now eexists|].
  destruct (match option_map Str.lower_char (Str.last_char _) with
            | Some "k"%char => _ | Some "m"%char => _ | _ => _ end) as [multiplier body].
  destruct (Num.py_float body) as [value|e] eqn:Ef.
  - cbn [rbind]. destruct (Num.float_mul_int value multiplier); cbn;
      (left; now eexists) || (right; reflexivity).
  - apply py_float_raises_ValueError in Ef as [msg ->]. left. now eexists.
Qed.

(** C3, at the token [inf]: [float] accepts it, the conversion of the
    infinite product to an integer raises [OverflowError], and the
    [except ValueError] clause lets that exception out of the compact number
    parser, where the claim promises absence and no error. *)
Theorem C3_compact_number_inf_raises :
  _parse_compact_number "inf"
  = Raise (OverflowError "cannot convert float infinity to integer").
Proof. vm_compute. reflexivity. Qed.

(** The same for a decimal numeral beyond the range of the floats, and for
    the scan of a block's text that meets such a token. *)
Example compact_1e999k_raises :
  _parse_compact_number "1e999k"
  = Raise (OverflowError "cannot convert float infinity to integer").
Proof. vm_compute. reflexivity. Qed.

Example upvotes_inf_raises :
  _extract_upvotes (Elem "div" [] [Text "inf upvotes"])
  = Raise (OverflowError "cannot convert float infinity to integer").
Proof. vm_compute. reflexivity. Qed.

(** ** The title *)

(** C7, at a page whose social-preview title is one space: the guard looks
    at the attribute before it is stripped, so the result is the empty
    string although the page has a title and a heading. *)
Theorem C7_blank_meta_title_gives_empty_title :
  title_from_title blank_title_page = Some "What is AI? - Quora"
  /\ title_from_heading blank_title_page = Some "What is AI?"
  /\ _extract_title blank_title_page = "".
Proof. vm_compute. repeat split. Qed.

(** The heading strategy tests the stripped text, and never gives an empty
    title; an empty title comes from the first two strategies only. *)
Lemma empty_title_origin (soup : node) :
  _extract_title soup = "" ->
  title_from_meta soup = Some "" \/ title_from_title soup = Some "".
Proof.
  unfold _extract_title.
  destruct (title_from_meta soup) as [t|]; [intros ->; now left|].
  destruct (title_from_title soup) as [t|]; [intros ->; now right|].
  unfold title_from_heading.
  destruct (find (is_tag "h1") soup) as [h|]; [|discriminate].
  destruct (get_text "" h); simpl; discriminate.
Qed.

(** ** The exporter *)

Section ExportProperties.

Import Exporter.

Variable Dict : Type.
Variable DataFrame : Type.
Variable pd_DataFrame : list Dict -> DataFrame.

Lemma unsupported_raises (records : list Dict) (output_dir base_filename fmt : string) :
  ~ In fmt ["json"; "csv"; "excel"; "html"] ->
  export_data pd_DataFrame records output_dir base_filename fmt
  = Throw (ValueError ("Unsupported format: " ++ fmt)).
Proof.
  intros H. apply mem_not_In in H. unfold export_data, supported_formats.
  now rewrite H.
Qed.

(** C8: with a format outside the supported set the exporter is the bare
    [raise]: whatever the world and its answers, the run ends in the
    [ValueError], has asked nothing of the world (no directory, no file, no
    clock, no log) and leaves the world as it was. *)
Theorem C8_unsupported_format_before_io
  (records : list Dict) (output_dir base_filename fmt : string) :
  ~ In fmt ["json"; "csv"; "excel"; "html"] ->
  export_data pd_DataFrame records output_dir base_filename fmt
  = Throw (ValueError ("Unsupported format: " ++ fmt))
  /\ forall (World : Type)
            (handle : forall X : Type, event Dict DataFrame X -> World -> result X * World)
            (w : World),
       run handle (export_data pd_DataFrame records output_dir base_filename fmt) w
       = (Raise (ValueError ("Unsupported format: " ++ fmt)), w, []).
Proof.
  intros H. split.
  - now apply unsupported_raises.
  - intros World handle w. now rewrite unsupported_raises.
Qed.

Lemma endswith_refl (s : string) : endswith s s = true.
Proof. destruct s; cbn [endswith]; now rewrite String.eqb_refl. Qed.

Lemma endswith_app (a b suffix : string) :
  endswith b suffix = true -> endswith (a ++ b) suffix = true.
Proof.
  intros H. induction a as [|c a IH]; simpl; [assumption|].
  rewrite IH. apply orb_true_r.
Qed.

Lemma os_path_join_endswith (a b suffix : string) :
  endswith b suffix = true -> endswith (os_path_join a b) suffix = true.
Proof.
  intros H. unfold os_path_join.
  destruct (Str.startswith b "/"); [assumption|].
  destruct (_ || _); repeat apply endswith_app; assumption.
Qed.

(** C10: the exporter rejects a format exactly when it is none of [json],
    [csv], [excel] and [html]; with each of these four, in a world where
    every request succeeds, it returns a path and a file is written there;
    with [excel] the path ends in [.xlsx] and holds the Excel rendering of
    the records; and the extension name [xlsx] is itself rejected with a
    [ValueError]. *)
Theorem C10_supported_formats
  (records : list Dict) (output_dir base_filename : string) :
  (forall fmt : string,
      export_data pd_DataFrame records output_dir base_filename fmt
      = Throw (ValueError ("Unsupported format: " ++ fmt))
      <-> ~ In fmt ["json"; "csv"; "excel"; "html"])
  /\ (forall (fmt : string) (w : world Dict DataFrame),
        In fmt ["json"; "csv"; "excel"; "html"] ->
        exists path c w' asked,
          run serve (export_data pd_DataFrame records output_dir base_filename fmt) w
          = (Ok path, w', asked)
          /\ files w' = (path, c) :: files w)
  /\ (forall w : world Dict DataFrame,
        let path := os_path_join output_dir (base_filename ++ "_" ++ clock w ++ ".xlsx") in
        endswith path ".xlsx" = true
        /\ exists w' asked,
            run serve (export_data pd_DataFrame records output_dir base_filename "excel") w
            = (Ok path, w', asked)
            /\ files w' = (path, ExcelOf (pd_DataFrame records)) :: files w)
  /\ export_data pd_DataFrame records output_dir base_filename "xlsx"
     = Throw (ValueError "Unsupported format: xlsx").
Proof.
  split; [|split; [|split]].
  - intros fmt. split.
    + intros H. apply mem_not_In. fold supported_formats.
      destruct (Str.mem fmt supported_formats) eqn:E; [|reflexivity].
      unfold export_data in H. rewrite E in H. discriminate H.
    + apply unsupported_raises.
  - intros fmt w Hin. simpl in Hin.
    destruct Hin as [<-|[<-|[<-|[<-|[]]]]]; cbn -[os_path_join Str.of_Z];
      do 4 eexists; split; reflexivity.
  - intros w path. split.
    + apply os_path_join_endswith. do 3 apply endswith_app. apply endswith_refl.
    + cbn -[os_path_join Str.of_Z]. do 2 eexists. split; reflexivity.
  - reflexivity.
Qed.

End ExportProperties.

(** ** The page parser *)

Lemma build_records_length (url title now : string) (qid : option Z) (count : Z)
  (blocks : list answer_dict) (start : Z) :
  List.length (build_records url title now qid count start blocks) = List.length blocks.
Proof.
  revert start. induction blocks as [|b blocks IH]; intros start; simpl; [reflexivity|].
  now rewrite IH.
Qed.

Lemma build_records_nth (url title now : string) (qid : option Z) (count : Z)
  (blocks : list answer_dict) (start : Z) (i : nat) :
  nth_error (build_records url title now qid count start blocks) i
  = option_map
      (fun b => mkRecord (start + Z.of_nat i) qid (_build_encoded_id qid (start + Z.of_nat i))
                         url title now count (Str.strip (text b)) (upvotes b) (views b)
                         (profile_url b)
                         [mkName (string_or_empty (author_name b)) EmptyString])
      (nth_error blocks i).
Proof.
  revert start i. induction blocks as [|b blocks IH]; intros start i.
  - destruct i; reflexivity.
  - destruct i as [|i]; simpl.
    + now rewrite Z.add_0_r.
    + rewrite IH. replace (start + 1 + Z.of_nat i) with (start + Z.pos (Pos.of_succ_nat i)) by lia.
      reflexivity.
Qed.

Section ScraperProperties.

Context {U : Urllib}.

(** C1: when the locator finds N >= 1 blocks, the page parser returns N
    records, the i-th built from the i-th block and carrying index i (from
    1) and answerCount N; the sequence is not empty. *)
Theorem C1_one_record_per_block
  (soup : node) (url creation_time_iso : string) (blocks : list answer_dict) :
  _extract_answer_blocks soup = Ok blocks ->
  (1 <= List.length blocks)%nat ->
  exists records : list QuoraAnswerRecord,
    _parse_question_page soup url creation_time_iso = Ok records
    /\ List.length records = List.length blocks
    /\ records <> []
    /\ forall (i : nat) (r : QuoraAnswerRecord),
         nth_error records i = Some r ->
         index r = Z.of_nat i + 1
         /\ answerCount r = Z.of_nat (List.length blocks)
         /\ exists b, nth_error blocks i = Some b /\ answers r = Str.strip (text b).
Proof.
  intros Hb Hn. unfold _parse_question_page. rewrite Hb. simpl rbind.
  set (records := build_records _ _ _ _ _ _ _).
  assert (Hlen : List.length records = List.length blocks)
    by apply build_records_length.
  assert (Hne : records <> []).
  { intros E. rewrite E in Hlen. simpl in Hlen. lia. }
  exists records. split; [|split; [assumption|split; [assumption|]]].
  - destruct records; [now elim Hne | reflexivity].
  - intros i r Hr. unfold records in Hr. rewrite build_records_nth in Hr.
    destruct (nth_error blocks i) as [b|]; [|discriminate].
    cbn [option_map] in Hr.
    apply (f_equal (fun o => match o with Some x => x | None => r end)) in Hr.
    cbn beta iota in Hr. subst r. cbn [index answerCount answers].
    split; [lia|]. split; [reflexivity|]. exists b. split; reflexivity.
Qed.

(** C2: when the locator finds no block, the page parser returns one
    record: index 1, answerCount 0, the visible text of the page cut at
    5000 characters, no upvotes, views or profile, and one empty name. *)
Theorem C2_whole_page_fallback (soup : node) (url creation_time_iso : string) :
  _extract_answer_blocks soup = Ok [] ->
  exists r : QuoraAnswerRecord,
    _parse_question_page soup url creation_time_iso = Ok [r]
    /\ index r = 1
    /\ answerCount r = 0
    /\ answers r = Str.take 5000 (get_text " " soup)
    /\ (String.length (answers r) <= 5000)%nat
    /\ numUpvotes r = None /\ numViews r = None /\ profileUrl r = None
    /\ names r = [mkName "" ""].
Proof.
  intros Hb. unfold _parse_question_page. rewrite Hb. simpl rbind.
  unfold build_records. eexists. split; [reflexivity|].
  cbn [index answerCount answers numUpvotes numViews profileUrl names].
  repeat split. apply take_length_le.
Qed.

(** Whenever the page parser returns, it returns at least one record. *)
Lemma parse_question_page_nonempty
  (soup : node) (url creation_time_iso : string) (records : list QuoraAnswerRecord) :
  _parse_question_page soup url creation_time_iso = Ok records -> records <> [].
Proof.
  unfold _parse_question_page.
  destruct (_extract_answer_blocks soup) as [blocks|e]; [|discriminate].
  cbn [rbind]. destruct blocks as [|b blocks]; cbn [build_records];
    intros [= <-]; discriminate.
Qed.

End ScraperProperties.

(** ** The question identifier *)

(** The digest function on the test vectors of the standard. *)
Example sha256_abc :
  SHA256.hexdigest "abc"
  = "ba7816bf8f01cfea414140de5dae2223b00361a396177a9cb410ff61f20015ad".
Proof. vm_compute. reflexivity. Qed.

Example sha256_empty :
  SHA256.hexdigest ""
  = "e3b0c44298fc1c149afbf4c8996fb92427ae41e4649b934ca495991b7852b855".
Proof. vm_compute. reflexivity. Qed.

Example sha256_two_blocks :
  SHA256.hexdigest "abcdbcdecdefdefgefghfghighijhijkijkljklmklmnlmnomnopnopq"
  = "248d6a61d20638b8e5c026930c3e6039a33ce45964ff2167f6ecedd419db06c1".
Proof. vm_compute. reflexivity. Qed.

Lemma is_hex_facts (c : ascii) :
  is_hex c = true ->
  Str.c_isspace c = false
  /\ Num.split_sign (String c EmptyString) = (false, String c EmptyString)
  /\ Ascii.eqb c "_" = false
  /\ (Ascii.eqb c "x" || Ascii.eqb c "X") = false
  /\ Num.digit_in 16 c = Num.digit_val c.
Proof.
  each_char c; vm_compute; intros H;
    solve [discriminate H | repeat split].
Qed.

Lemma split_sign_hex (c : ascii) (t : string) :
  is_hex c = true -> Num.split_sign (String c t) = (false, String c t).
Proof.
  each_char c; vm_compute; intros H;
    solve [discriminate H | reflexivity].
Qed.

Lemma lstrip_all_hex (s : string) :
  Str.all_chars is_hex s = true -> Str.lstrip_by Str.c_isspace s = s.
Proof.
  destruct s as [|c t]; [reflexivity|]. simpl. intros H.
  apply andb_true_iff in H as [Hc _].
  apply is_hex_facts in Hc as [-> _]. reflexivity.
Qed.

Lemma rstrip_all_hex (s : string) :
  Str.all_chars is_hex s = true -> Str.rstrip_by Str.c_isspace s = s.
Proof.
  induction s as [|c t IH]; [reflexivity|]. simpl. intros H.
  apply andb_true_iff in H as [Hc Ht].
  apply is_hex_facts in Hc as [-> _]. now rewrite IH.
Qed.

Lemma int_digits_all_hex (s : string) :
  Str.all_chars is_hex s = true ->
  forall (acc count : Z) (after_digit : bool),
    s <> EmptyString \/ after_digit = true ->
    Num.int_digits 16 s acc count after_digit
    = Some (base16_value_from acc s, count + Z.of_nat (String.length s)).
Proof.
  induction s as [|c t IH]; intros H acc count after_digit Hne.
  - destruct Hne as [Hne | ->]; [now elim Hne|]. simpl. now rewrite Z.add_0_r.
  - cbn [Str.all_chars] in H. apply andb_true_iff in H as [Hc Ht].
    pose proof (is_hex_facts c Hc) as (_ & _ & Hu & _ & Hd).
    cbn [Num.int_digits base16_value_from]. rewrite Hu, Hd.
    unfold is_hex in Hc. destruct (Num.digit_val c) as [d|]; [|discriminate].
    rewrite (IH Ht); [|now right].
    f_equal. f_equal. cbn [String.length]. lia.
Qed.

Lemma hex_body_all_hex (s : string) :
  Str.all_chars is_hex s = true ->
  Num.hex_body s = Num.int_digits 16 s 0 0 false.
Proof.
  destruct s as [|c [|x t]]; intros H.
  - reflexivity.
  - each_char c; reflexivity.
  - cbn [Str.all_chars] in H. apply andb_true_iff in H as [_ H].
    apply andb_true_iff in H as [Hx _].
    pose proof (is_hex_facts x Hx) as (_ & _ & _ & Hxx & _).
    unfold Num.hex_body.
    each_char c; try reflexivity.
    now rewrite Hxx.
Qed.

(** On a non-empty string of hexadecimal digits, [int(s, 16)] succeeds and
    gives the base-16 value. *)
Lemma py_int16_all_hex (s : string) :
  Str.all_chars is_hex s = true -> s <> EmptyString ->
  Num.py_int16 s = Ok (base16_value s).
Proof.
  intros H Hne. unfold Num.py_int16.
  rewrite (lstrip_all_hex s H), (rstrip_all_hex s H).
  destruct s as [|c t]; [now elim Hne|].
  assert (Hc : is_hex c = true).
  { cbn [Str.all_chars] in H. now apply andb_true_iff in H as [Hc _]. }
  rewrite (split_sign_hex c t Hc), (hex_body_all_hex _ H).
  rewrite (int_digits_all_hex _ H); [|now left].
  cbn [String.length]. destruct (0 <? 0 + Z.of_nat (S (String.length t))) eqn:E.
  - reflexivity.
  - apply Z.ltb_ge in E. lia.
Qed.

Lemma is_hex_hex_char (d : Z) : 0 <= d < 16 -> is_hex (SHA256.hex_char d) = true.
Proof.
  intros H.
  assert (E : d = 0 \/ d = 1 \/ d = 2 \/ d = 3 \/ d = 4 \/ d = 5 \/ d = 6 \/ d = 7 \/ d = 8
              \/ d = 9 \/ d = 10 \/ d = 11 \/ d = 12 \/ d = 13 \/ d = 14 \/ d = 15) by lia.
  repeat (destruct E as [-> | E]; [reflexivity|]). now subst.
Qed.

Lemma all_chars_app (p : ascii -> bool) (a b : string) :
  Str.all_chars p (a ++ b) = Str.all_chars p a && Str.all_chars p b.
Proof.
  induction a as [|c a IH]; simpl; [reflexivity|]. now rewrite IH, andb_assoc.
Qed.

Lemma all_chars_take (p : ascii -> bool) (n : nat) (s : string) :
  Str.all_chars p s = true -> Str.all_chars p (Str.take n s) = true.
Proof.
  unfold Str.take. revert s. induction n as [|n IH]; intros s H.
  - destruct s; reflexivity.
  - destruct s as [|c s]; [reflexivity|]. cbn [Str.all_chars] in H.
    apply andb_true_iff in H as [Hc Hs]. simpl. now rewrite Hc, IH.
Qed.

Lemma length_app (a b : string) :
  String.length (a ++ b) = (String.length a + String.length b)%nat.
Proof. induction a as [|c a IH]; simpl; [reflexivity|]. now rewrite IH. Qed.

Lemma hex8_all_hex (x : Z) : Str.all_chars is_hex (SHA256.hex8 x) = true.
Proof.
  unfold SHA256.hex8. cbn [Str.all_chars].
  rewrite !is_hex_hex_char by (apply Z.mod_pos_bound; lia). reflexivity.
Qed.

Lemma hex8_length (x : Z) : String.length (SHA256.hex8 x) = 8%nat.
Proof. reflexivity. Qed.

(** A digest is 64 hexadecimal digits. *)
Lemma hexdigest_all_hex (s : string) : Str.all_chars is_hex (SHA256.hexdigest s) = true.
Proof.
  unfold SHA256.hexdigest, SHA256.hex_of_state.
  rewrite !all_chars_app, !hex8_all_hex. reflexivity.
Qed.

Lemma hexdigest_length (s : string) : String.length (SHA256.hexdigest s) = 64%nat.
Proof.
  unfold SHA256.hexdigest, SHA256.hex_of_state.
  rewrite !length_app, !hex8_length. reflexivity.
Qed.

Lemma digest_prefix_parses (url : string) :
  Num.py_int16 (Str.take 12 (SHA256.hexdigest url))
  = Ok (base16_value (Str.take 12 (SHA256.hexdigest url))).
Proof.
  apply py_int16_all_hex.
  - apply all_chars_take, hexdigest_all_hex.
  - intros E. apply (f_equal String.length) in E.
    unfold Str.take in E. rewrite substring_0_length, hexdigest_length in E.
    discriminate E.
Qed.

Lemma qid_from_hash_value (url : string) :
  qid_from_hash url = Some (base16_value (Str.take 12 (SHA256.hexdigest url))).
Proof. unfold qid_from_hash. now rewrite digest_prefix_parses. Qed.

(** C4: on a page without a [qid] meta tag and without a [data-qid]
    attribute, the identifier is the base-16 value of the first 12
    characters of the SHA-256 hex digest of the URL; two such pages give the
    same identifier for the same URL. *)
Theorem C4_qid_fallback_is_hash_prefix (soup : node) (url : string) :
  no_qid_signal soup ->
  _extract_qid soup url = Some (base16_value (Str.take 12 (SHA256.hexdigest url)))
  /\ forall soup' : node,
       no_qid_signal soup' -> _extract_qid soup' url = _extract_qid soup url.
Proof.
  assert (G : forall s, no_qid_signal s ->
             _extract_qid s url = Some (base16_value (Str.take 12 (SHA256.hexdigest url)))).
  { intros s (H1 & H2 & H3). unfold _extract_qid, qid_from_meta, qid_from_data.
    rewrite H1, H2, H3. apply qid_from_hash_value. }
  intros H. split; [now apply G|].
  intros soup' H'. now rewrite (G soup H), (G soup' H').
Qed.

(** C9: the identifier is always present, and the conversion of the digest
    prefix never takes the [except ValueError] branch. *)
Theorem C9_qid_always_present (soup : node) (url : string) :
  (exists n : Z, _extract_qid soup url = Some n)
  /\ (exists n : Z, Num.py_int16 (Str.take 12 (SHA256.hexdigest url)) = Ok n)
  /\ qid_from_hash url <> None.
Proof.
  split; [|split].
  - unfold _extract_qid.
    destruct (qid_from_meta soup) as [n|]; [now exists n|].
    destruct (qid_from_data soup) as [n|]; [now exists n|].
    rewrite qid_from_hash_value. now eexists.
  - rewrite digest_prefix_parses. now eexists.
  - now rewrite qid_from_hash_value.
Qed.

(** ** The search-page link collector *)

Section CollectorProperties.

Context {U : Urllib}.

(** A skipped target leaves the loop's list as it is, wherever the target
    stands among the links. *)
Lemma collect_links_skips (pre post : list string) (href : string) :
  skipped href = true ->
  forall question_urls : list string,
    collect_links (pre ++ href :: post) question_urls
    = collect_links (pre ++ post) question_urls.
Proof.
  intros Hs. induction pre as [|h pre IH]; intros question_urls.
  - simpl. now rewrite Hs.
  - simpl. destruct (skipped h); [apply IH|].
    destruct (slug_marker h || Str.contains "/question/" h); [|apply IH].
    destruct (_normalize_url h) as [full_url|e]; simpl; [|reflexivity].
    destruct (Str.mem full_url question_urls); apply IH.
Qed.

(** Every URL of the result was in the list at the start or is the
    normalized form of a target that is not skipped. *)
Lemma collect_links_origin (hrefs : list string) :
  forall question_urls urls : list string,
    collect_links hrefs question_urls = Ok urls ->
    forall u : string,
      In u urls ->
      In u question_urls
      \/ exists h, In h hrefs /\ skipped h = false /\ _normalize_url h = Ok u.
Proof.
  induction hrefs as [|h hrefs IH]; intros question_urls urls H u Hu.
  - simpl in H. injection H as <-. now left.
  - simpl in H.
    assert (K : forall acc, collect_links hrefs acc = Ok urls ->
                (forall v, In v acc -> In v question_urls
                   \/ (skipped h = false /\ _normalize_url h = Ok v)) ->
                In u question_urls
                \/ exists h', In h' (h :: hrefs) /\ skipped h' = false
                              /\ _normalize_url h' = Ok u).
    { intros acc Hacc Hin.
      destruct (IH _ _ Hacc u Hu) as [Ha | (h' & Hh' & Hk & Hn)].
      - destruct (Hin _ Ha) as [Hq | [Hk Hn]]; [now left|].
        right. exists h. repeat split; [now left | assumption | assumption].
      - right. exists h'. repeat split; [now right | assumption | assumption]. }
    destruct (skipped h) eqn:Hk; [apply (K _ H); intros v Hv; now left|].
    destruct (slug_marker h || Str.contains "/question/" h);
      [|apply (K _ H); intros v Hv; now left].
    destruct (_normalize_url h) as [full_url|e] eqn:Hn; simpl in H; [|discriminate H].
    destruct (Str.mem full_url question_urls).
    + apply (K _ H). intros v Hv. now left.
    + apply (K _ H). intros v Hv. apply in_app_or in Hv as [Hv | [<- | []]].
      * now left.
      * right. now split.
Qed.

End CollectorProperties.

(** C5, at two pages with links to another site: the only link of
    [cross_site_page] is an absolute URL whose host, [other.com], does not
    contain the site's domain, and the collector returns it, because the
    guard under the comment "Ignore external links" looks for [quora.com]
    in the whole target and not in the host.  On [scheme_relative_page] the
    first link leads to the same other site without naming a scheme: it
    passes the guard, and its normalized form, which the collector returns,
    is the absolute cross-site URL of the second link. *)
Lemma C5_cross_site_link_is_collected :
  (link_targets cross_site_page = ["https://other.com/What-is-quora.com"]
   /\ rejected_as_specified "https://other.com/What-is-quora.com" = true
   /\ @_parse_search_results_page cpython cross_site_page
      = Ok ["https://other.com/What-is-quora.com"])
  /\ (link_targets scheme_relative_page = ["//other.com/What-x"; "https://other.com/What-x"]
      /\ skipped "https://other.com/What-x" = true
      /\ @_parse_search_results_page cpython scheme_relative_page
         = Ok ["https://other.com/What-x"]).
Proof. vm_compute. repeat split. Qed.

(** C6: on a page whose links are, in document order, [/profile/alice],
    [/What-is-AI], [/answer/123], [https://other.com/x] and
    [/question/456-foo], the collector returns the normalized forms of the
    second and the fifth, in that order, and nothing else. *)
Theorem C6_search_links_example
  (check_bracketed_netloc : string -> result unit) (soup : node) :
  link_targets soup
  = ["/profile/alice"; "/What-is-AI"; "/answer/123"; "https://other.com/x";
     "/question/456-foo"] ->
  let U := Cpython.urllib check_bracketed_netloc in
  @_parse_search_results_page U soup
  = Ok ["https://www.quora.com/What-is-AI"; "https://www.quora.com/question/456-foo"]
  /\ @_normalize_url U "/What-is-AI" = Ok "https://www.quora.com/What-is-AI"
  /\ @_normalize_url U "/question/456-foo" = Ok "https://www.quora.com/question/456-foo".
Proof.
  intros H U. unfold _parse_search_results_page. rewrite H.
  vm_compute. repeat split.
Qed.

(** ** The claims at concrete pages *)

Lemma C1_two_answers_page :
  (@_extract_answer_blocks cpython two_answers_page = Ok two_answers_blocks
   /\ (1 <= List.length two_answers_blocks)%nat)
  /\ exists records : list QuoraAnswerRecord,
       @_parse_question_page cpython two_answers_page
         "https://www.quora.com/What-is-AI" "2024-01-01T00:00:00+00:00" = Ok records
       /\ List.length records = List.length two_answers_blocks
       /\ records <> []
       /\ forall (i : nat) (r : QuoraAnswerRecord),
            nth_error records i = Some r ->
            index r = Z.of_nat i + 1
            /\ answerCount r = Z.of_nat (List.length two_answers_blocks)
            /\ exists b, nth_error two_answers_blocks i = Some b
                         /\ answers r = Str.strip (text b).
Proof.
  split.
  - split; [vm_compute; reflexivity | simpl; lia].
  - apply (@C1_one_record_per_block cpython two_answers_page
             "https://www.quora.com/What-is-AI" "2024-01-01T00:00:00+00:00"
             two_answers_blocks);
      [vm_compute; reflexivity | simpl; lia].
Defined.

(** The [OverflowError] of the compact number parser leaves the locator and
    the page parser. *)
Example inf_upvotes_page_raises :
  @_parse_question_page cpython inf_upvotes_page
    "https://www.quora.com/What-is-AI" "2024-01-01T00:00:00+00:00"
  = Raise (OverflowError "cannot convert float infinity to integer").
Proof. vm_compute. reflexivity. Qed.

Lemma C2_no_answers_page :
  @_extract_answer_blocks cpython no_answers_page = Ok []
  /\ exists r : QuoraAnswerRecord,
       @_parse_question_page cpython no_answers_page
         "https://www.quora.com/What-is-AI" "2024-01-01T00:00:00+00:00" = Ok [r]
       /\ index r = 1
       /\ answerCount r = 0
       /\ answers r = Str.take 5000 (get_text " " no_answers_page)
       /\ (String.length (answers r) <= 5000)%nat
       /\ numUpvotes r = None /\ numViews r = None /\ profileUrl r = None
       /\ names r = [mkName "" ""].
Proof.
  split.
  - vm_compute. reflexivity.
  - apply (@C2_whole_page_fallback cpython no_answers_page
             "https://www.quora.com/What-is-AI" "2024-01-01T00:00:00+00:00").
    vm_compute. reflexivity.
Defined.

Lemma C4_no_signal_page :
  no_qid_signal no_answers_page
  /\ _extract_qid no_answers_page "https://www.quora.com/What-is-AI"
     = Some (base16_value (Str.take 12 (SHA256.hexdigest "https://www.quora.com/What-is-AI")))
  /\ forall soup' : node,
       no_qid_signal soup' ->
       _extract_qid soup' "https://www.quora.com/What-is-AI"
       = _extract_qid no_answers_page "https://www.quora.com/What-is-AI".
Proof.
  split.
  - vm_compute. repeat split.
  - apply (C4_qid_fallback_is_hash_prefix no_answers_page "https://www.quora.com/What-is-AI").
    vm_compute. repeat split.
Defined.

Example qid_of_example_url :
  _extract_qid no_answers_page "https://www.quora.com/What-is-AI" = Some 54784889200698.
Proof. vm_compute. reflexivity. Qed.

Lemma C6_results_page :
  link_targets results_page
  = ["/profile/alice"; "/What-is-AI"; "/answer/123"; "https://other.com/x";
     "/question/456-foo"]
  /\ @_parse_search_results_page cpython results_page
     = Ok ["https://www.quora.com/What-is-AI"; "https://www.quora.com/question/456-foo"]
  /\ @_normalize_url cpython "/What-is-AI" = Ok "https://www.quora.com/What-is-AI"
  /\ @_normalize_url cpython "/question/456-foo"
     = Ok "https://www.quora.com/question/456-foo".
Proof.
  split.
  - vm_compute. reflexivity.
  - apply (C6_search_links_example
             (fun _ => Raise (ValueError "invalid bracketed host")) results_page).
    vm_compute. reflexivity.
Defined.

Lemma C8_xml_rejected :
  ~ In "xml" ["json"; "csv"; "excel"; "html"]
  /\ (Exporter.export_data (fun records : list QuoraAnswerRecord => records)
        [] "out" "quora_results" "xml"
      = Exporter.Throw (ValueError "Unsupported format: xml")
      /\ forall (World : Type)
                (handle : forall X : Type,
                    Exporter.event QuoraAnswerRecord (list QuoraAnswerRecord) X ->
                    World -> result X * World)
                (w : World),
           Exporter.run handle
             (Exporter.export_data (fun records : list QuoraAnswerRecord => records)
                [] "out" "quora_results" "xml") w
           = (Raise (ValueError "Unsupported format: xml"), w, [])).
Proof.
  assert (H : ~ In "xml" ["json"; "csv"; "excel"; "html"]).
  { simpl. intros [E | [E | [E | [E | []]]]]; discriminate E. }
  split; [exact H|].
  exact (C8_unsupported_format_before_io QuoraAnswerRecord (list QuoraAnswerRecord)
           (fun records => records) [] "out" "quora_results" "xml" H).
Defined.

Lemma C10_formats_of_one_export :
  (forall fmt : string,
      Exporter.export_data (fun records : list QuoraAnswerRecord => records)
        [] "out" "quora_results" fmt
      = Exporter.Throw (ValueError ("Unsupported format: " ++ fmt))
      <-> ~ In fmt ["json"; "csv"; "excel"; "html"])
  /\ (forall (fmt : string) (w : Exporter.world QuoraAnswerRecord (list QuoraAnswerRecord)),
        In fmt ["json"; "csv"; "excel"; "html"] ->
        exists path c w' asked,
          Exporter.run Exporter.serve
            (Exporter.export_data (fun records : list QuoraAnswerRecord => records)
               [] "out" "quora_results" fmt) w
          = (Ok path, w', asked)
          /\ Exporter.files w' = (path, c) :: Exporter.files w)
  /\ (forall w : Exporter.world QuoraAnswerRecord (list QuoraAnswerRecord),
        let path :=
          Exporter.os_path_join "out" ("quora_results" ++ "_" ++ Exporter.clock w ++ ".xlsx") in
        Exporter.endswith path ".xlsx" = true
        /\ exists w' asked,
            Exporter.run Exporter.serve
              (Exporter.export_data (fun records : list QuoraAnswerRecord => records)
                 [] "out" "quora_results" "excel") w
            = (Ok path, w', asked)
            /\ Exporter.files w' = (path, Exporter.ExcelOf []) :: Exporter.files w)
  /\ Exporter.export_data (fun records : list QuoraAnswerRecord => records)
       [] "out" "quora_results" "xlsx"
     = Exporter.Throw (ValueError "Unsupported format: xlsx").
Proof.
  exact (C10_supported_formats QuoraAnswerRecord (list QuoraAnswerRecord)
           (fun records => records) [] "out" "quora_results").
Defined.

Example export_excel_path :
  Exporter.run Exporter.serve
    (Exporter.export_data (fun records : list QuoraAnswerRecord => records)
       [] "out" "quora_results" "excel")
    (Exporter.mkWorld _ _ [] [] "20240101_000000" [])
  = (Ok "out/quora_results_20240101_000000.xlsx",
     Exporter.mkWorld _ _ ["out"]
       [("out/quora_results_20240101_000000.xlsx", Exporter.ExcelOf [])]
       "20240101_000000"
       ["Exporting 0 records as excel to out/quora_results_20240101_000000.xlsx"],
     [Exporter.Asked (Exporter.Makedirs "out"); Exporter.Asked Exporter.Timestamp;
      Exporter.Asked
        (Exporter.LogInfo
           "Exporting 0 records as excel to out/quora_results_20240101_000000.xlsx");
      Exporter.Asked (Exporter.ToExcel [] "out/quora_results_20240101_000000.xlsx")]).
Proof. vm_compute. reflexivity. Qed.

(** * Further properties *)

(** ** Stripping *)

Lemma rstrip_by_cons (sp : ascii -> bool) (c : ascii) (t : string) :
  Str.rstrip_by sp (String c t)
  = if sp c && Str.is_empty (Str.rstrip_by sp t) then EmptyString
    else String c (Str.rstrip_by sp t).
Proof. reflexivity. Qed.

Lemma rstrip_by_fixed (sp : ascii -> bool) (s : string) (d : ascii) :
  Str.last_char s = Some d -> sp d = false -> Str.rstrip_by sp s = s.
Proof.
  induction s as [|c t IH]; intros Hl Hd; [reflexivity|].
  destruct t as [|c' t'].
  - injection Hl as ->. simpl. now rewrite Hd.
  - change (Str.last_char (String c (String c' t'))) with (Str.last_char (String c' t')) in Hl.
    rewrite rstrip_by_cons, (IH Hl Hd). cbn [Str.is_empty].
    now rewrite andb_false_r.
Qed.

Lemma rstrip_by_last (sp : ascii -> bool) (s : string) (d : ascii) :
  Str.last_char (Str.rstrip_by sp s) = Some d -> sp d = false.
Proof.
  induction s as [|c t IH]; [discriminate|].
  rewrite rstrip_by_cons.
  destruct (Str.rstrip_by sp t) as [|c' t'] eqn:E.
  - cbn [Str.is_empty]. rewrite andb_true_r. destruct (sp c) eqn:Ec; [discriminate|].
    intros [= <-]. exact Ec.
  - cbn [Str.is_empty]. rewrite andb_false_r.
    change (Str.last_char (String c (String c' t'))) with (Str.last_char (String c' t')).
    exact IH.
Qed.

Lemma rstrip_by_head (sp : ascii -> bool) (c : ascii) (t : string) :
  Str.rstrip_by sp (String c t) = EmptyString
  \/ exists t', Str.rstrip_by sp (String c t) = String c t'.
Proof.
  rewrite rstrip_by_cons. destruct (sp c && _); [now left | right; now eexists].
Qed.

Lemma lstrip_by_head (sp : ascii -> bool) (s : string) :
  match Str.lstrip_by sp s with
  | EmptyString => True
  | String c _ => sp c = false
  end.
Proof.
  induction s as [|c t IH]; [exact I|]. cbn [Str.lstrip_by].
  destruct (sp c) eqn:E; [exact IH | exact E].
Qed.

Lemma last_char_nonempty (s : string) :
  s <> EmptyString -> exists d, Str.last_char s = Some d.
Proof.
  induction s as [|c t IH]; intros H; [now elim H|].
  destruct t as [|c' t']; [now exists c|].
  destruct IH as [d Hd]; [discriminate|]. exists d. exact Hd.
Qed.

(** What [strip] returns has no blank at either end. *)
Lemma strip_trimmed (s : string) : trimmed (Str.strip s) = true.
Proof.
  unfold Str.strip, trimmed.
  pose proof (lstrip_by_head Str.isspace s) as Hh.
  destruct (Str.lstrip_by Str.isspace s) as [|c t]; [reflexivity|].
  destruct (rstrip_by_head Str.isspace c t) as [-> | [t' E]]; [reflexivity|].
  rewrite E. destruct (Str.last_char (String c t')) as [d|] eqn:El; [|reflexivity].
  rewrite <- E in El. apply rstrip_by_last in El. now rewrite Hh, El.
Qed.

(** A string without blanks at its ends is left as it is. *)
Lemma strip_of_trimmed (s : string) : trimmed s = true -> Str.strip s = s.
Proof.
  unfold trimmed, Str.strip. destruct s as [|c t]; [reflexivity|].
  destruct (last_char_nonempty (String c t)) as [d Hd]; [discriminate|].
  rewrite Hd. intros H. apply andb_true_iff in H as [Hc Hl].
  apply negb_true_iff in Hc, Hl.
  cbn [Str.lstrip_by]. rewrite Hc. now apply rstrip_by_fixed with (d := d).
Qed.

Lemma last_char_app (a b : string) :
  b <> EmptyString -> Str.last_char (a ++ b) = Str.last_char b.
Proof.
  intros Hb. induction a as [|c a IH]; [reflexivity|].
  cbn [append]. destruct (a ++ b) as [|c' r] eqn:E.
  - destruct a; [now elim Hb | discriminate E].
  - exact IH.
Qed.

Lemma app_nonempty_l (a b : string) : a <> EmptyString -> (a ++ b) <> EmptyString.
Proof. destruct a; [intros H; now elim H | discriminate]. Qed.

Lemma app_nonempty_r (a b : string) : b <> EmptyString -> (a ++ b) <> EmptyString.
Proof. destruct a; [trivial | discriminate]. Qed.

(** Joining non-empty trimmed strings gives a trimmed string, whatever the
    separator. *)
Lemma join_trimmed (sep : string) (l : list string) :
  Forall (fun x => x <> EmptyString /\ trimmed x = true) l ->
  trimmed (Str.join sep l) = true
  /\ (l <> [] -> Str.join sep l <> EmptyString).
Proof.
  induction 1 as [|x r [Hx Ht] Hr [IHt IHn]]; [split; [reflexivity | intros H; now elim H]|].
  destruct r as [|y r'].
  - split; [exact Ht | intros _; exact Hx].
  - assert (Hj : Str.join sep (y :: r') <> EmptyString) by (apply IHn; discriminate).
    change (Str.join sep (x :: y :: r')) with (x ++ sep ++ Str.join sep (y :: r')).
    split; [|intros _; now apply app_nonempty_l].
    destruct x as [|c t]; [now elim Hx|].
    unfold trimmed in *. cbn [append].
    change (String c (t ++ sep ++ Str.join sep (y :: r')))
      with (String c t ++ sep ++ Str.join sep (y :: r')).
    rewrite (last_char_app (String c t) (sep ++ Str.join sep (y :: r')))
      by (apply app_nonempty_r; exact Hj).
    rewrite last_char_app by exact Hj.
    destruct (last_char_nonempty (String c t)) as [d Hd]; [discriminate|].
    rewrite Hd in Ht. apply andb_true_iff in Ht as [Hc _].
    destruct (Str.join sep (y :: r')) as [|c' t'] eqn:E; [now elim Hj|].
    destruct (Str.last_char (String c' t')); [|reflexivity].
    apply andb_true_iff in IHt as [_ Hl]. now rewrite Hc, Hl.
Qed.

(** ** The text of a tag *)

Lemma stripped_strings_trimmed (n : node) :
  Forall (fun x => x <> EmptyString /\ trimmed x = true) (stripped_strings n).
Proof.
  apply Forall_forall. intros x Hx. unfold stripped_strings in Hx.
  apply in_flat_map in Hx as [d [_ Hd]].
  destruct d as [s | s | t a cs]; try now elim Hd.
  cbv zeta in Hd. destruct (Str.strip s) eqn:E; cbn [Str.is_empty] in Hd; [now elim Hd|].
  destruct Hd as [<- | []]. split; [discriminate|]. rewrite <- E. apply strip_trimmed.
Qed.

(** [get_text(sep, strip=True)] has no blank at either end. *)
Lemma get_text_trimmed (sep : string) (n : node) : trimmed (get_text sep n) = true.
Proof. apply join_trimmed, stripped_strings_trimmed. Qed.

Lemma get_text_strip (sep : string) (n : node) :
  Str.strip (get_text sep n) = get_text sep n.
Proof. apply strip_of_trimmed, get_text_trimmed. Qed.

(** Whether the text is empty does not depend on the separator. *)
Lemma get_text_nonempty (sep sep' : string) (n : node) :
  get_text sep n <> EmptyString -> get_text sep' n <> EmptyString.
Proof.
  unfold get_text. intros H.
  apply (join_trimmed sep' _ (stripped_strings_trimmed n)).
  intros E. rewrite E in H. now elim H.
Qed.

(** ** The answer-block locator *)

Lemma dedupe_sound (answers : list answer_dict) :
  forall (seen_texts : list string) (a : answer_dict),
    In a (dedupe answers seen_texts) ->
    In a answers
    /\ ~ In (text a) seen_texts
    /\ List.find (fun b => String.eqb (text b) (text a)) answers = Some a.
Proof.
  induction answers as [|b rest IH]; intros seen_texts a Ha; [now elim Ha|].
  cbn [dedupe] in Ha. cbn [List.find].
  destruct (Str.mem (text b) seen_texts) eqn:Em.
  - destruct (IH _ _ Ha) as (Hin & Hs & Hf). split; [now right|]. split; [exact Hs|].
    destruct (String.eqb (text b) (text a)) eqn:E; [|exact Hf].
    apply String.eqb_eq in E. apply mem_In in Em. rewrite E in Em. now elim Hs.
  - apply mem_not_In in Em. destruct Ha as [<- | Ha].
    + split; [now left|]. split; [exact Em|]. now rewrite String.eqb_refl.
    + destruct (IH _ _ Ha) as (Hin & Hs & Hf). split; [now right|].
      split; [intros H; apply Hs; now right|].
      destruct (String.eqb (text b) (text a)) eqn:E; [|exact Hf].
      apply String.eqb_eq in E. elim Hs. now left.
Qed.

Lemma dedupe_texts (answers : list answer_dict) :
  forall (seen_texts : list string) (t : string),
    In t (map text (dedupe answers seen_texts))
    <-> In t (map text answers) /\ ~ In t seen_texts.
Proof.
  induction answers as [|b rest IH]; intros seen_texts t; cbn [dedupe map].
  - split; [intros [] | intros [[] _]].
  - destruct (Str.mem (text b) seen_texts) eqn:Em.
    + rewrite IH. apply mem_In in Em. split.
      * intros [H1 H2]. split; [now right | exact H2].
      * intros [[<- | H1] H2]; [now elim H2 | now split].
    + apply mem_not_In in Em. cbn [map In]. rewrite IH. split.
      * intros [<- | [H1 H2]]; [split; [now left | exact Em]|].
        split; [now right | intros H; apply H2; now right].
      * intros [[<- | H1] H2]; [now left|].
        destruct (string_dec (text b) t) as [E | E]; [now left|].
        right. split; [exact H1 | intros [H | H]; [now elim E | now elim H2]].
Qed.

Lemma dedupe_NoDup (answers : list answer_dict) :
  forall seen_texts : list string, NoDup (map text (dedupe answers seen_texts)).
Proof.
  induction answers as [|b rest IH]; intros seen_texts; cbn [dedupe]; [constructor|].
  destruct (Str.mem (text b) seen_texts); [apply IH|].
  cbn [map]. constructor; [|apply IH].
  rewrite dedupe_texts. intros [_ H]. apply H. now left.
Qed.

Lemma dedupe_fixed (answers : list answer_dict) :
  forall seen_texts : list string,
    NoDup (map text answers) ->
    (forall t, In t (map text answers) -> ~ In t seen_texts) ->
    dedupe answers seen_texts = answers.
Proof.
  induction answers as [|b rest IH]; intros seen_texts Hn Hs; [reflexivity|].
  cbn [dedupe]. cbn [map] in Hn, Hs. inversion Hn as [|? ? Hb Hr]; subst.
  assert (Em : Str.mem (text b) seen_texts = false).
  { apply mem_not_In. apply Hs. now left. }
  rewrite Em. f_equal. apply IH; [exact Hr|].
  intros t Ht [<- | H]; [now elim Hb|]. apply (Hs t); [now right | exact H].
Qed.

(** X1.  The de-duplication keeps, for every text, the first block that
    carries it and no other: the kept texts are pairwise distinct, they are
    the texts of the input, each kept block is the first of the input with
    its text, and a list without repeated texts is left as it is. *)
Theorem dedupe_first_occurrence (answers : list answer_dict) :
  NoDup (map text (dedupe answers []))
  /\ (forall t : string,
         In t (map text (dedupe answers [])) <-> In t (map text answers))
  /\ (forall a : answer_dict,
         In a (dedupe answers []) ->
         List.find (fun b => String.eqb (text b) (text a)) answers = Some a)
  /\ dedupe (dedupe answers []) [] = dedupe answers [].
Proof.
  split; [apply dedupe_NoDup|]. split; [|split].
  - intros t. rewrite dedupe_texts. split; [now intros [H _] | intros H; split; [exact H | easy]].
  - intros a Ha. now apply dedupe_sound in Ha.
  - apply dedupe_fixed; [apply dedupe_NoDup | easy].
Qed.

Section LocatorProperties.

Context {U : Urllib}.


Lemma scan_tokens_raises (word : string) (tokens : list string) :
  forall (prev : option string) (e : exn),
    scan_tokens word prev tokens = Raise e -> e = overflow.
Proof.
  induction tokens as [|tok rest IH]; intros prev e; cbn [scan_tokens]; [discriminate|].
  destruct (Str.contains word tok); [|apply IH].
  destruct prev as [maybe|]; [|apply IH].
  destruct (compact_number_outcomes maybe) as [[o ->] | ->]; cbn [rbind].
  - destruct o; [discriminate | apply IH].
  - now intros [= <-].
Qed.

(** A count is read from the token just before a token that contains the
    word, and from nowhere else. *)
Lemma scan_tokens_sound (word : string) (tokens : list string) :
  forall (prev : option string) (n : Z),
    scan_tokens word prev tokens = Ok (Some n) ->
    exists (before after : list string) (maybe tok : string),
      (match prev with Some p => [p] | None => [] end ++ tokens)%list
      = (before ++ maybe :: tok :: after)%list
      /\ Str.contains word tok = true
      /\ _parse_compact_number maybe = Ok (Some n).
Proof.
  induction tokens as [|tok rest IH]; intros prev n; cbn [scan_tokens]; [discriminate|].
  assert (K : scan_tokens word (Some tok) rest = Ok (Some n) ->
              exists before after maybe tok',
                (match prev with Some p => [p] | None => [] end ++ tok :: rest)%list
                = (before ++ maybe :: tok' :: after)%list
                /\ Str.contains word tok' = true
                /\ _parse_compact_number maybe = Ok (Some n)).
  { intros H. destruct (IH _ _ H) as (before & after & maybe & tok' & E & Hc & Hp).
    exists (match prev with Some p => [p] | None => [] end ++ before)%list, after, maybe, tok'.
    split; [|now split]. rewrite <- app_assoc. f_equal. exact E. }
  destruct (Str.contains word tok) eqn:Ec; [|exact K].
  destruct prev as [maybe|]; [|exact K].
  destruct (_parse_compact_number maybe) as [[m|]|e] eqn:Ep; cbn [rbind];
    [|exact K|discriminate].
  intros [= <-]. exists [], rest, maybe, tok. now repeat split.
Qed.

Lemma extract_upvotes_raises (container : node) (e : exn) :
  _extract_upvotes container = Raise e -> e = overflow.
Proof.
  unfold _extract_upvotes. destruct (negb _); [discriminate|]. apply scan_tokens_raises.
Qed.

Lemma extract_views_raises (container : node) (e : exn) :
  _extract_views container = Raise e -> e = overflow.
Proof.
  unfold _extract_views. destruct (negb _); [discriminate|]. apply scan_tokens_raises.
Qed.

Lemma extract_author_raises (container : node) (e : exn) :
  _extract_author container = Raise e ->
  exists href, Str.contains "/profile/" href = true /\ _normalize_url href = Raise e.
Proof.
  unfold _extract_author.
  set (scan := hd_error (filter is_profile_link (find_all is_link container))).
  assert (Hs : forall l, scan = Some l -> is_profile_link l = true).
  { intros l Hl. unfold scan in Hl.
    destruct (filter is_profile_link (find_all is_link container)) as [|x r] eqn:E;
      [discriminate|].
    injection Hl as ->.
    assert (Hin : In l (filter is_profile_link (find_all is_link container)))
      by (rewrite E; now left).
    now apply filter_In in Hin. }
  assert (G : forall best, (forall l, best = Some l -> is_profile_link l = true) ->
              match best with
              | None => Ok (None, None)
              | Some l =>
                  full_url <- _normalize_url (get_or_empty "href" l) ;;
                  Ok (Some full_url,
                      if Str.truthy (get_text "" l) then Some (get_text "" l) else None)
              end = Raise e ->
              exists href, Str.contains "/profile/" href = true
                           /\ _normalize_url href = Raise e).
  { intros [l|] Hb; [|discriminate].
    destruct (_normalize_url (get_or_empty "href" l)) as [u|e'] eqn:En; [discriminate|].
    cbn [rbind]. intros [= ->]. exists (get_or_empty "href" l).
    split; [exact (Hb l eq_refl) | exact En]. }
  destruct (find is_link container) as [l|]; [|now apply G].
  destruct (is_profile_link l) eqn:El; [|now apply G].
  apply (G (Some l)). now intros l' [= <-].
Qed.

Lemma build_answer_dict_text (container : node) (t : string) (a : answer_dict) :
  _build_answer_dict container t = Ok a -> text a = t.
Proof.
  unfold _build_answer_dict.
  destruct (_extract_upvotes container); [|discriminate].
  destruct (_extract_views container); [|discriminate].
  destruct (_extract_author container); [|discriminate].
  cbn [rbind]. now intros [= <-].
Qed.

Lemma build_answer_dict_raises (container : node) (t : string) (e : exn) :
  _build_answer_dict container t = Raise e ->
  e = overflow
  \/ exists href, Str.contains "/profile/" href = true /\ _normalize_url href = Raise e.
Proof.
  unfold _build_answer_dict.
  destruct (_extract_upvotes container) eqn:E1; cbn [rbind];
    [|intros [= <-]; left; now apply (extract_upvotes_raises container)].
  destruct (_extract_views container) eqn:E2; cbn [rbind];
    [|intros [= <-]; left; now apply (extract_views_raises container)].
  destruct (_extract_author container) eqn:E3; cbn [rbind]; [discriminate|].
  intros [= <-]. right. now apply (extract_author_raises container).
Qed.

Lemma heuristic1_good (containers : list node) :
  forall answers, heuristic1 containers = Ok answers -> Forall good answers.
Proof.
  induction containers as [|c rest IH]; intros answers; cbn [heuristic1].
  - intros [= <-]. constructor.
  - destruct (Str.contains "answer" _); [|apply IH].
    destruct (Str.truthy (get_text " " c)) eqn:Et; [|apply IH].
    destruct (_build_answer_dict c (get_text " " c)) as [a|] eqn:Ea; [|discriminate].
    destruct (heuristic1 rest) as [l|]; [|discriminate].
    cbn [rbind]. intros [= <-]. constructor; [|now apply IH].
    apply build_answer_dict_text in Ea. unfold good. rewrite Ea. split.
    + intros E. rewrite E in Et. discriminate Et.
    + apply get_text_trimmed.
Qed.

Lemma heuristic2_good (containers : list node) :
  forall answers, heuristic2 containers = Ok answers -> Forall good answers.
Proof.
  induction containers as [|c rest IH]; intros answers; cbn [heuristic2].
  - intros [= <-]. constructor.
  - destruct (Str.contains "answer" _ && (50 <? Str.len (get_text "" c))) eqn:Eg; [|apply IH].
    destruct (_build_answer_dict c (get_text " " c)) as [a|] eqn:Ea; [|discriminate].
    destruct (heuristic2 rest) as [l|]; [|discriminate].
    cbn [rbind]. intros [= <-]. constructor; [|now apply IH].
    apply build_answer_dict_text in Ea. unfold good. rewrite Ea. split.
    + apply (get_text_nonempty "" " "). intros E. rewrite E in Eg.
      now rewrite andb_false_r in Eg.
    + apply get_text_trimmed.
Qed.

Lemma heuristic1_raises (containers : list node) (e : exn) :
  heuristic1 containers = Raise e ->
  e = overflow
  \/ exists href, Str.contains "/profile/" href = true /\ _normalize_url href = Raise e.
Proof.
  induction containers as [|c rest IH]; cbn [heuristic1]; [discriminate|].
  destruct (Str.contains "answer" _); [|exact IH].
  destruct (Str.truthy (get_text " " c)); [|exact IH].
  destruct (_build_answer_dict c (get_text " " c)) as [a|e'] eqn:Ea; cbn [rbind].
  - destruct (heuristic1 rest); [discriminate|]. cbn [rbind].
    intros [= <-]. now apply IH.
  - intros [= <-]. now apply (build_answer_dict_raises c (get_text " " c)).
Qed.

Lemma heuristic2_raises (containers : list node) (e : exn) :
  heuristic2 containers = Raise e ->
  e = overflow
  \/ exists href, Str.contains "/profile/" href = true /\ _normalize_url href = Raise e.
Proof.
  induction containers as [|c rest IH]; cbn [heuristic2]; [discriminate|].
  destruct (Str.contains "answer" _ && _); [|exact IH].
  destruct (_build_answer_dict c (get_text " " c)) as [a|e'] eqn:Ea; cbn [rbind].
  - destruct (heuristic2 rest); [discriminate|]. cbn [rbind].
    intros [= <-]. now apply IH.
  - intros [= <-]. now apply (build_answer_dict_raises c (get_text " " c)).
Qed.

Lemma located_blocks_good (soup : node) (blocks : list answer_dict) :
  _extract_answer_blocks soup = Ok blocks ->
  NoDup (map text blocks)
  /\ Forall (fun b => text b <> EmptyString /\ Str.strip (text b) = text b) blocks.
Proof.
  unfold _extract_answer_blocks.
  destruct (heuristic1 _) as [l1|] eqn:E1; [|discriminate]. cbn [rbind].
  assert (G : forall l, Forall good l ->
              NoDup (map text (dedupe l []))
              /\ Forall (fun b => text b <> EmptyString /\ Str.strip (text b) = text b)
                        (dedupe l [])).
  { intros l Hl. split; [apply dedupe_NoDup|].
    apply Forall_forall. intros b Hb. apply dedupe_sound in Hb as [Hb _].
    rewrite Forall_forall in Hl. destruct (Hl b Hb) as [Hn Ht].
    split; [exact Hn | now apply strip_of_trimmed]. }
  destruct l1 as [|a l1].
  - destruct (heuristic2 _) as [l2|] eqn:E2; [|discriminate]. cbn [rbind].
    intros [= <-]. apply (G l2). now apply heuristic2_good in E2.
  - cbn [rbind]. intros [= <-]. apply (G (a :: l1)). now apply heuristic1_good in E1.
Qed.

Lemma locator_raises_only (soup : node) (e : exn) :
  _extract_answer_blocks soup = Raise e ->
  e = OverflowError "cannot convert float infinity to integer"
  \/ exists href, Str.contains "/profile/" href = true /\ _normalize_url href = Raise e.
Proof.
  unfold _extract_answer_blocks.
  destruct (heuristic1 _) as [l1|e1] eqn:E1; cbn [rbind];
    [|intros [= <-]; now apply heuristic1_raises in E1].
  destruct l1 as [|a l1]; [|discriminate].
  destruct (heuristic2 _) as [l2|e2] eqn:E2; cbn [rbind]; [discriminate|].
  intros [= <-]. now apply heuristic2_raises in E2.
Qed.

(** X2: The blocks the locator returns have non-empty texts without blanks
    at their ends, and no two of them have the same text. *)
Theorem located_blocks_distinct_nonempty (soup : node) (blocks : list answer_dict) :
  _extract_answer_blocks soup = Ok blocks ->
  NoDup (map text blocks)
  /\ Forall (fun b => text b <> EmptyString /\ Str.strip (text b) = text b) blocks.
Proof. apply located_blocks_good. Qed.

End LocatorProperties.

(** ** The records of a page *)



Lemma build_records_answers (url title now : string) (qid : option Z) (count : Z)
  (blocks : list answer_dict) :
  forall start : Z,
    map answers (build_records url title now qid count start blocks)
    = map (fun b => Str.strip (text b)) blocks.
Proof.
  induction blocks as [|b rest IH]; intros start; [reflexivity|].
  cbn [build_records map answers]. now rewrite IH.
Qed.

Section RecordProperties.

Context {U : Urllib}.

Lemma parse_with_blocks (soup : node) (url now : string) (blocks : list answer_dict) :
  _extract_answer_blocks soup = Ok blocks ->
  blocks <> [] ->
  _parse_question_page soup url now
  = Ok (build_records url (_extract_title soup) now (_extract_qid soup url)
                      (Z.of_nat (List.length blocks)) 1 blocks).
Proof.
  intros Hb Hne. unfold _parse_question_page. rewrite Hb. cbn [rbind].
  destruct blocks as [|b rest]; [now elim Hne | reflexivity].
Qed.

Lemma Ok_inj {A : Type} (x y : A) : Ok x = Ok y -> x = y.
Proof. now intros [= ->]. Qed.


(** X3: When the locator finds blocks, the answers of the records are the
    texts of the blocks, in order: none is empty and no two are equal. *)
Theorem answers_distinct_nonempty
  (soup : node) (url creation_time_iso : string)
  (blocks : list answer_dict) (records : list QuoraAnswerRecord) :
  _extract_answer_blocks soup = Ok blocks ->
  blocks <> [] ->
  _parse_question_page soup url creation_time_iso = Ok records ->
  map answers records = map text blocks
  /\ NoDup (map answers records)
  /\ Forall (fun r => answers r <> EmptyString) records.
Proof.
  intros Hb Hne. pose proof (located_blocks_good soup blocks Hb) as [Hd Hg].
  rewrite (parse_with_blocks soup url creation_time_iso blocks Hb Hne).
  intros H. apply Ok_inj in H. subst records.
  rewrite Forall_forall in Hg.
  assert (Ha : map answers
                 (build_records url (_extract_title soup) creation_time_iso
                    (_extract_qid soup url) (Z.of_nat (List.length blocks)) 1 blocks)
               = map text blocks).
  { rewrite build_records_answers. apply map_ext_in. intros x Hx. now apply (Hg x). }
  split; [exact Ha|]. split; [now rewrite Ha|].
  apply Forall_forall. intros r Hr.
  apply (in_map answers) in Hr. rewrite Ha in Hr.
  apply in_map_iff in Hr as [x [Hx Hin]]. rewrite <- Hx. now apply (Hg x).
Qed.

(** X5: The page parser raises nothing but the [OverflowError] of the compact
    number parser and what the URL library raises on a profile link. *)
Theorem page_parser_raises_only (soup : node) (url creation_time_iso : string) (e : exn) :
  _parse_question_page soup url creation_time_iso = Raise e ->
  e = OverflowError "cannot convert float infinity to integer"
  \/ exists href, Str.contains "/profile/" href = true /\ _normalize_url href = Raise e.
Proof.
  unfold _parse_question_page.
  destruct (_extract_answer_blocks soup) as [blocks|e'] eqn:Eb; cbn [rbind].
  - destruct (build_records _ _ _ _ _ _ _); discriminate.
  - intros [= <-]. now apply locator_raises_only in Eb.
Qed.

(** X6: A count of upvotes or views is the compact number in the token just
    before a token that contains the word. *)
Theorem counts_come_from_preceding_token (container : node) (n : Z) :
  (_extract_upvotes container = Ok (Some n) ->
   exists before after maybe tok,
     Str.split (Str.lower (get_text " " container)) = (before ++ maybe :: tok :: after)%list
     /\ Str.contains "upvote" tok = true /\ _parse_compact_number maybe = Ok (Some n))
  /\ (_extract_views container = Ok (Some n) ->
      exists before after maybe tok,
        Str.split (Str.lower (get_text " " container)) = (before ++ maybe :: tok :: after)%list
        /\ Str.contains "view" tok = true /\ _parse_compact_number maybe = Ok (Some n)).
Proof.
  split.
  - unfold _extract_upvotes. destruct (negb _); [discriminate|].
    intros H. apply scan_tokens_sound in H. exact H.
  - unfold _extract_views. destruct (negb _); [discriminate|].
    intros H. apply scan_tokens_sound in H. exact H.
Qed.

End RecordProperties.

(** ** The collected URLs *)

Section CollectedUrls.

Context {U : Urllib}.

Lemma NoDup_snoc (l : list string) (x : string) :
  NoDup l -> ~ In x l -> NoDup (l ++ [x]).
Proof.
  intros Hl Hx. induction Hl as [|y l Hy Hl IH]; cbn [app].
  - constructor; [easy | constructor].
  - constructor.
    + intros H. apply in_app_or in H as [H | [<- | []]]; [now elim Hy|].
      apply Hx. now left.
    + apply IH. intros H. apply Hx. now right.
Qed.

Lemma collect_links_spec (hrefs : list string) :
  forall question_urls urls : list string,
    collect_links hrefs question_urls = Ok urls ->
    (NoDup question_urls -> NoDup urls)
    /\ forall u : string,
         In u urls
         <-> In u question_urls
             \/ exists h, In h hrefs /\ skipped h = false
                          /\ (slug_marker h || Str.contains "/question/" h) = true
                          /\ _normalize_url h = Ok u.
Proof.
  induction hrefs as [|h rest IH]; intros acc urls H.
  - cbn in H. apply Ok_inj in H. subst urls. split; [trivial|].
    intros u. split; [now left | intros [Hu | (h & [] & _)]; exact Hu].
  - cbn [collect_links] in H.
    assert (Skip : collect_links rest acc = Ok urls ->
                   (skipped h = true
                    \/ (slug_marker h || Str.contains "/question/" h) = false
                    \/ exists full, _normalize_url h = Ok full /\ In full acc) ->
                   (NoDup acc -> NoDup urls)
                   /\ forall u, In u urls
                        <-> In u acc
                            \/ exists h', In h' (h :: rest) /\ skipped h' = false
                                 /\ (slug_marker h' || Str.contains "/question/" h') = true
                                 /\ _normalize_url h' = Ok u).
    { intros Hr Hwhy. destruct (IH _ _ Hr) as [Hn Hi]. split; [exact Hn|].
      intros u. rewrite Hi. split.
      - intros [Hu | (h' & Hin & Hk & Hm & Hnorm)]; [now left|].
        right. exists h'. repeat split; try assumption. now right.
      - intros [Hu | (h' & [<- | Hin] & Hk & Hm & Hnorm)]; [now left| |].
        + destruct Hwhy as [Hw | [Hw | (full & Hf & Hfa)]]; try congruence.
          left. congruence.
        + right. exists h'. now repeat split. }
    destruct (skipped h) eqn:Hk; [apply (Skip H); now left|].
    destruct (slug_marker h || Str.contains "/question/" h) eqn:Hm;
      [|apply (Skip H); right; now left].
    destruct (_normalize_url h) as [full|e] eqn:Hn; cbn [rbind] in H; [|discriminate H].
    destruct (Str.mem full acc) eqn:Em.
    + apply (Skip H). right. right. exists full. split; [reflexivity | now apply mem_In].
    + apply mem_not_In in Em. destruct (IH _ _ H) as [Hnd Hi]. split.
      * intros Hacc. apply Hnd. now apply NoDup_snoc.
      * intros u. rewrite Hi. split.
        -- intros [Hu | (h' & Hin & Hk' & Hm' & Hnorm)].
           ++ apply in_app_or in Hu as [Hu | [<- | []]]; [now left|].
              right. exists h. repeat split; try assumption. now left.
           ++ right. exists h'. repeat split; try assumption. now right.
        -- intros [Hu | (h' & [<- | Hin] & Hk' & Hm' & Hnorm)].
           ++ left. apply in_or_app. now left.
           ++ left. apply in_or_app. right. left. congruence.
           ++ right. exists h'. now repeat split.
Qed.

(** X8: The collector returns no URL twice, and it returns exactly the
    normalized forms of the targets that pass the three guards and carry a
    slug marker or [/question/]. *)
Theorem collected_urls_unique_and_complete (soup : node) (urls : list string) :
  _parse_search_results_page soup = Ok urls ->
  NoDup urls
  /\ forall u : string,
       In u urls
       <-> exists h, In h (link_targets soup) /\ skipped h = false
                     /\ (slug_marker h || Str.contains "/question/" h) = true
                     /\ _normalize_url h = Ok u.
Proof.
  intros H. destruct (collect_links_spec _ _ _ H) as [Hn Hi].
  split; [apply Hn; constructor|].
  intros u. rewrite Hi. split; [intros [[] | Hu]; exact Hu | now right].
Qed.

(** X9: The collector raises only what the URL library raises on a target it
    accepts. *)
Theorem collector_raises_only (soup : node) (e : exn) :
  _parse_search_results_page soup = Raise e ->
  exists h, In h (link_targets soup) /\ skipped h = false /\ _normalize_url h = Raise e.
Proof.
  unfold _parse_search_results_page. generalize (@nil string) as acc.
  induction (link_targets soup) as [|h rest IH]; intros acc; cbn [collect_links];
    [discriminate|].
  assert (K : collect_links rest acc = Raise e ->
              exists h', In h' (h :: rest) /\ skipped h' = false
                         /\ _normalize_url h' = Raise e).
  { intros H. destruct (IH _ H) as (h' & Hin & Hk & Hn). exists h'. now repeat split; [right|..]. }
  destruct (skipped h) eqn:Hk; [exact K|].
  destruct (slug_marker h || _); [|exact K].
  destruct (_normalize_url h) as [full|e'] eqn:Hn; cbn [rbind].
  - destruct (Str.mem full acc); [exact K|].
    intros H. destruct (IH _ H) as (h' & Hin & Hk' & Hn'). exists h'. now repeat split; [right|..].
  - intros [= <-]. exists h. now repeat split; [left|..].
Qed.

End CollectedUrls.

(** ** Identifiers *)

Lemma base16_value_from_bounds (s : string) :
  forall acc : Z,
    0 <= acc ->
    acc * 16 ^ Z.of_nat (String.length s) <= base16_value_from acc s
    /\ base16_value_from acc s < (acc + 1) * 16 ^ Z.of_nat (String.length s).
Proof.
  induction s as [|c t IH]; intros acc Hacc.
  - cbn [base16_value_from String.length]. change (16 ^ Z.of_nat 0) with 1. lia.
  - cbn [base16_value_from String.length].
    assert (Hd : 0 <= match Num.digit_val c with Some d => d | None => 0 end < 16).
    { each_char c; vm_compute; split; congruence. }
    set (d := match Num.digit_val c with Some d => d | None => 0 end) in *.
    destruct (IH (acc * 16 + d)) as [Hlo Hhi]; [lia|].
    rewrite Nat2Z.inj_succ, Z.pow_succ_r by lia.
    assert (Hp : 0 < 16 ^ Z.of_nat (String.length t)) by (apply Z.pow_pos_nonneg; lia).
    split; nia.
Qed.

(** X10: The identifier of the hash fallback is a 48-bit number. *)
Theorem qid_from_hash_range (url : string) :
  exists n : Z, qid_from_hash url = Some n /\ 0 <= n < 2 ^ 48.
Proof.
  rewrite qid_from_hash_value. eexists. split; [reflexivity|].
  unfold base16_value.
  destruct (base16_value_from_bounds (Str.take 12 (SHA256.hexdigest url)) 0) as [Hlo Hhi];
    [lia|].
  unfold Str.take in *. rewrite substring_0_length, hexdigest_length in Hlo, Hhi.
  change (Z.of_nat (Nat.min 12 64)) with 12 in Hlo, Hhi.
  change ((0 + 1) * 16 ^ 12) with (2 ^ 48) in Hhi. lia.
Qed.

Lemma hex_char_lower (d : Z) :
  0 <= d < 16 -> Str.has_char (SHA256.hex_char d) "0123456789abcdef" = true.
Proof.
  intros H.
  assert (E : d = 0 \/ d = 1 \/ d = 2 \/ d = 3 \/ d = 4 \/ d = 5 \/ d = 6 \/ d = 7 \/ d = 8
              \/ d = 9 \/ d = 10 \/ d = 11 \/ d = 12 \/ d = 13 \/ d = 14 \/ d = 15) by lia.
  repeat (destruct E as [-> | E]; [reflexivity|]). now subst.
Qed.

Lemma hexdigest_lower (s : string) :
  Str.all_chars (fun c => Str.has_char c "0123456789abcdef") (SHA256.hexdigest s) = true.
Proof.
  unfold SHA256.hexdigest, SHA256.hex_of_state. rewrite !all_chars_app.
  unfold SHA256.hex8. cbn [Str.all_chars].
  rewrite !hex_char_lower by (apply Z.mod_pos_bound; lia). reflexivity.
Qed.

(** X11: The id of a record is 32 lower-case hexadecimal digits. *)
Theorem encoded_id_shape (qid : option Z) (answer_index : Z) :
  String.length (_build_encoded_id qid answer_index) = 32%nat
  /\ Str.all_chars (fun c => Str.has_char c "0123456789abcdef")
                   (_build_encoded_id qid answer_index) = true.
Proof.
  unfold _build_encoded_id. split.
  - unfold Str.take. now rewrite substring_0_length, hexdigest_length.
  - apply all_chars_take, hexdigest_lower.
Qed.

(** ** The title, again *)

(** X12: The title has no blank at either end, and it is empty exactly when the
    first strategy whose guard holds returns a text made of blanks only. *)
Theorem title_trimmed_and_when_empty (soup : node) :
  Str.strip (_extract_title soup) = _extract_title soup
  /\ (_extract_title soup = EmptyString
      <-> title_from_meta soup = Some EmptyString
          \/ (title_from_meta soup = None /\ title_from_title soup = Some EmptyString)).
Proof.
  split.
  - apply strip_of_trimmed. unfold _extract_title, title_from_meta, title_from_title,
      title_from_heading.
    destruct (find (fun n => is_tag "meta" n && attr_is "property" "og:title" n) soup) as [m|].
    + destruct (Str.truthy (get_or_empty "content" m)); [apply strip_trimmed|].
      destruct (find (is_tag "title") soup) as [t|].
      * destruct (string_of t) as [x|].
        -- destruct (Str.truthy x); [apply strip_trimmed|].
           destruct (find (is_tag "h1") soup) as [h|]; [|reflexivity].
           destruct (Str.truthy (get_text "" h)); [apply get_text_trimmed | reflexivity].
        -- destruct (find (is_tag "h1") soup) as [h|]; [|reflexivity].
           destruct (Str.truthy (get_text "" h)); [apply get_text_trimmed | reflexivity].
      * destruct (find (is_tag "h1") soup) as [h|]; [|reflexivity].
        destruct (Str.truthy (get_text "" h)); [apply get_text_trimmed | reflexivity].
    + destruct (find (is_tag "title") soup) as [t|].
      * destruct (string_of t) as [x|].
        -- destruct (Str.truthy x); [apply strip_trimmed|].
           destruct (find (is_tag "h1") soup) as [h|]; [|reflexivity].
           destruct (Str.truthy (get_text "" h)); [apply get_text_trimmed | reflexivity].
        -- destruct (find (is_tag "h1") soup) as [h|]; [|reflexivity].
           destruct (Str.truthy (get_text "" h)); [apply get_text_trimmed | reflexivity].
      * destruct (find (is_tag "h1") soup) as [h|]; [|reflexivity].
        destruct (Str.truthy (get_text "" h)); [apply get_text_trimmed | reflexivity].
  - split.
    + intros H. unfold _extract_title in H.
      destruct (title_from_meta soup) as [t|]; [left; now subst|].
      destruct (title_from_title soup) as [t|]; [right; now subst|].
      unfold title_from_heading in H.
      destruct (find (is_tag "h1") soup) as [h|]; [|discriminate].
      destruct (get_text "" h); cbn in H; discriminate.
    + unfold _extract_title. intros [-> | [-> ->]]; reflexivity.
Qed.

(** ** The exporter, again *)

Section ExportRuns.

Import Exporter.

Variable Dict : Type.
Variable DataFrame : Type.
Variable pd_DataFrame : list Dict -> DataFrame.

Lemma startswith_app (a b p : string) :
  Str.startswith a p = true -> Str.startswith (a ++ b) p = true.
Proof.
  unfold Str.startswith. revert a. induction p as [|c p IH]; intros a H.
  - destruct (a ++ b); reflexivity.
  - destruct a as [|c' a]; [discriminate H|]. cbn [append String.prefix] in *.
    destruct (ascii_dec c c'); [now apply IH | discriminate H].
Qed.

Lemma export_run_serve
  (records : list Dict) (output_dir base_filename fmt ext : string)
  (c : content Dict DataFrame) (w : world Dict DataFrame) :
  In (fmt, (ext, c)) (renderings pd_DataFrame records) ->
  let path := os_path_join output_dir (base_filename ++ "_" ++ clock w ++ "." ++ ext) in
  exists (w' : world Dict DataFrame) (asked : list (request Dict DataFrame)),
    run serve (export_data pd_DataFrame records output_dir base_filename fmt) w
    = (Ok path, w', asked)
    /\ endswith path ("." ++ ext) = true
    /\ directories w' = output_dir :: directories w
    /\ files w' = (path, c) :: files w.
Proof.
  intros Hin path.
  assert (He : endswith path ("." ++ ext) = true).
  { apply os_path_join_endswith. do 3 apply endswith_app. apply endswith_refl. }
  unfold renderings in Hin. cbn [In] in Hin.
  destruct Hin as [H | [H | [H | [H | []]]]]; injection H as <- <- <-;
    cbn -[os_path_join Str.of_Z]; do 2 eexists; (split; [reflexivity|]);
    (split; [exact He|]); split; reflexivity.
Qed.

(** X14: With each supported format, in a world where every request succeeds,
    the exporter creates the directory, writes one file and returns its
    path: the path is [os.path.join] of the directory and
    [<base>_<timestamp>.<ext>], with the extension of the format, and the
    file holds the records themselves for [json] and the data frame built
    from them for the other formats. *)
Theorem export_writes_one_file
  (records : list Dict) (output_dir base_filename fmt ext : string)
  (c : content Dict DataFrame) (w : world Dict DataFrame) :
  In (fmt, (ext, c)) (renderings pd_DataFrame records) ->
  let path := os_path_join output_dir (base_filename ++ "_" ++ clock w ++ "." ++ ext) in
  exists (w' : world Dict DataFrame) (asked : list (request Dict DataFrame)),
    run serve (export_data pd_DataFrame records output_dir base_filename fmt) w
    = (Ok path, w', asked)
    /\ endswith path ("." ++ ext) = true
    /\ directories w' = output_dir :: directories w
    /\ files w' = (path, c) :: files w.
Proof. apply export_run_serve. Qed.


(** X16: When the directory cannot be created, nothing else is asked of the
    world: no timestamp is taken and no file is written. *)
Theorem export_stops_when_makedirs_fails
  (records : list Dict) (output_dir base_filename fmt : string) (e : exn)
  (World : Type)
  (handle : forall X : Type, event Dict DataFrame X -> World -> result X * World)
  (w w' : World) :
  In fmt ["json"; "csv"; "excel"; "html"] ->
  handle unit (Makedirs output_dir) w = (Raise e, w') ->
  run handle (export_data pd_DataFrame records output_dir base_filename fmt) w
  = (Raise e, w', [Asked (Makedirs output_dir)]).
Proof.
  intros Hin Hm. apply mem_In in Hin. unfold export_data. fold supported_formats in Hin.
  unfold supported_formats in *. rewrite Hin. cbn [negb]. unfold _ensure_dir, call.
  cbn [bind run]. rewrite Hm. reflexivity.
Qed.

(** X17: A base file name that starts with a slash is an absolute path: the
    file goes there, outside the output directory (which is created all the
    same). *)
Theorem export_absolute_base_filename
  (records : list Dict) (output_dir base_filename fmt ext : string)
  (c : content Dict DataFrame) (w : world Dict DataFrame) :
  In (fmt, (ext, c)) (renderings pd_DataFrame records) ->
  Str.startswith base_filename "/" = true ->
  exists (w' : world Dict DataFrame) (asked : list (request Dict DataFrame)),
    run serve (export_data pd_DataFrame records output_dir base_filename fmt) w
    = (Ok (base_filename ++ "_" ++ clock w ++ "." ++ ext), w', asked)
    /\ files w' = (base_filename ++ "_" ++ clock w ++ "." ++ ext, c) :: files w
    /\ directories w' = output_dir :: directories w.
Proof.
  intros Hin Hb.
  destruct (export_run_serve records output_dir base_filename fmt ext c w Hin)
    as (w' & asked & Hr & _ & Hd & Hf).
  assert (E : os_path_join output_dir (base_filename ++ "_" ++ clock w ++ "." ++ ext)
              = base_filename ++ "_" ++ clock w ++ "." ++ ext).
  { unfold os_path_join. now rewrite startswith_app. }
  rewrite E in Hr, Hf. exists w', asked. now repeat split.
Qed.

End ExportRuns.

(** ** Scraping *)

Lemma to_dict_names_inj (l l' : list name_pair) :
  map name_to_dict l = map name_to_dict l' -> l = l'.
Proof.
  revert l'. induction l as [|[g f] l IH]; intros [|[g' f'] l'] H; try discriminate H.
  - reflexivity.
  - cbn in H. injection H as -> -> H. f_equal. now apply IH.
Qed.

Lemma of_option_inj {A : Type} (f : A -> pyvalue) (o o' : option A) :
  (forall a a', f a = f a' -> a = a') ->
  (forall a, f a <> PNone) ->
  of_option f o = of_option f o' -> o = o'.
Proof.
  intros Hf Hn. destruct o as [a|], o' as [a'|]; cbn; intros H.
  - f_equal. now apply Hf.
  - now elim (Hn a).
  - symmetry in H. now elim (Hn a').
  - reflexivity.
Qed.

(** X13: The dictionary of a record determines the record: [to_dict] loses no
    field, and tells an absent value from every present one. *)
Theorem to_dict_injective (r r' : QuoraAnswerRecord) :
  to_dict r = to_dict r' -> r = r'.
Proof.
  destruct r, r'. unfold to_dict. cbn [index qid id url title creationTime answerCount
    answers numUpvotes numViews profileUrl names].
  intros H. injection H as H1 H2 H3 H4 H5 H6 H7 H8 H9 H10 H11 H12.
  apply of_option_inj in H2; [|now intros a a' [= ->] | discriminate].
  apply of_option_inj in H9; [|now intros a a' [= ->] | discriminate].
  apply of_option_inj in H10; [|now intros a a' [= ->] | discriminate].
  apply of_option_inj in H11; [|now intros a a' [= ->] | discriminate].
  apply to_dict_names_inj in H12. now subst.
Qed.

Section ScrapeProperties.

Import Scrape.

Context {U : Urllib} {W : Web}.

Section Handled.

Variable World : Type.
Variable handle : forall X : Type, event X -> World -> result X * World.

Lemma run_bind {A B : Type} (m : io A) (f : A -> io B) :
  forall w : World,
    run handle (bind m f) w
    = match run handle m w with
      | (Ok a, w', asked) =>
          let '(out, w'', asked') := run handle (f a) w' in
          (out, w'', asked ++ asked')%list
      | (Raise e, w', asked) => (Raise e, w', asked)
      end.
Proof.
  induction m as [a | e | X ev k IH]; intros w; cbn [bind run].
  - destruct (run handle (f a) w) as [[out w''] asked']. reflexivity.
  - reflexivity.
  - destruct (handle X ev w) as [r w1]. rewrite IH.
    destruct (run handle (k r) w1) as [[[a|e] w2] asked]; [|reflexivity].
    destruct (run handle (f a) w2) as [[out w3] asked']. reflexivity.
Qed.

Lemma fetched_app (a b : list request) : fetched (a ++ b) = (fetched a ++ fetched b)%list.
Proof.
  induction a as [|[X ev] a IH]; [reflexivity|].
  cbn [app fetched]. destruct ev; cbn [app]; now rewrite IH.
Qed.

Lemma parse_question_page_fetches (html url : string) (w : World) :
  fetched (snd (run handle (parse_question_page html url) w)) = [].
Proof.
  unfold parse_question_page.
  destruct (_extract_answer_blocks (BeautifulSoup html)); [|reflexivity].
  unfold call. cbn [bind run]. destruct (handle string ClockIso w) as [[now|e] w1].
  - cbn [bind]. destruct (_parse_question_page _ _ now); reflexivity.
  - reflexivity.
Qed.

(** One question URL: nothing is fetched when the URL cannot be
    normalized, and otherwise the normalized URL is fetched once. *)
Lemma scrape_question_trace (url : string) (w : World) :
  (fetched (snd (run handle (_scrape_question url) w)) = []
   /\ is_ok (fst (fst (run handle (_scrape_question url) w))) = false)
  \/ exists normalized_url,
       _normalize_url url = Ok normalized_url
       /\ fetched (snd (run handle (_scrape_question url) w)) = [normalized_url].
Proof.
  unfold _scrape_question.
  destruct (_normalize_url url) as [n|e]; cbn [lift bind]; [|left; now split].
  right. exists n. split; [reflexivity|].
  unfold _get. cbn [bind run].
  destruct (handle response (SessionGet n) w) as [[[html|msg]|e] w1]; cbn [bind run];
    try reflexivity.
  pose proof (parse_question_page_fetches html n w1) as H.
  destruct (run handle (parse_question_page html n) w1) as [[out w2] asked].
  cbn [snd fetched] in *. now rewrite H.
Qed.

Lemma scrape_each_trace (question_urls : list string) :
  forall w : World,
    exists k : nat,
      (k <= List.length question_urls)%nat
      /\ Forall2 (fun got u => _normalize_url u = Ok got)
                 (fetched (snd (run handle (scrape_each question_urls) w)))
                 (firstn k question_urls)
      /\ (is_ok (fst (fst (run handle (scrape_each question_urls) w))) = true ->
          k = List.length question_urls).
Proof.
  induction question_urls as [|u rest IH]; intros w.
  - exists 0%nat. cbn. repeat split; constructor.
  - cbn [scrape_each]. rewrite run_bind.
    pose proof (scrape_question_trace u w) as Hq.
    destruct (run handle (_scrape_question u) w) as [[[found|e] w1] asked].
    + destruct Hq as [[_ Hk] | (n & Hn & Hf)]; [discriminate Hk|]. cbn [snd] in Hf.
      rewrite run_bind. destruct (IH w1) as (k & Hk & Hall & Hdone).
      destruct (run handle (scrape_each rest) w1) as [[[more|e] w2] asked'].
      * cbn [run]. exists (S k). cbn [snd fst is_ok] in *.
        rewrite app_nil_r, fetched_app, Hf. cbn [app firstn List.length].
        repeat split; [lia | now constructor | intros _; now rewrite Hdone].
      * exists (S k). cbn [snd fst is_ok] in *.
        rewrite fetched_app, Hf. cbn [app firstn List.length].
        repeat split; [lia | now constructor | discriminate].
    + destruct Hq as [[Hf _] | (n & Hn & Hf)]; cbn [snd fst is_ok] in *.
      * exists 0%nat. rewrite Hf. cbn. repeat split; [lia | constructor | discriminate].
      * exists 1%nat. rewrite Hf. cbn [firstn List.length].
        repeat split; [lia | now repeat constructor | discriminate].
Qed.

(** X18: The loop over the question URLs fetches them one by one, in order and
    after normalization, none twice; it fetches all of them when it
    returns. *)
Theorem scrape_each_fetches_in_order (question_urls : list string) (w : World) :
  exists k : nat,
    (k <= List.length question_urls)%nat
    /\ Forall2 (fun got u => _normalize_url u = Ok got)
               (fetched (snd (run handle (scrape_each question_urls) w)))
               (firstn k question_urls)
    /\ (is_ok (fst (fst (run handle (scrape_each question_urls) w))) = true ->
        k = List.length question_urls).
Proof. apply scrape_each_trace. Qed.

(** X19: A listing scrape first fetches the listing URL as it is given, and
    then at most [max(limit_per_search, 0)] pages. *)
Theorem scrape_search_fetch_bound (url : string) (limit_per_search : Z) (w : World) :
  exists rest : list string,
    fetched (snd (run handle (_scrape_search url (Some limit_per_search)) w)) = url :: rest
    /\ (List.length rest <= Z.to_nat (Z.max limit_per_search 0))%nat.
Proof.
  unfold _scrape_search, _get. cbn [bind run].
  destruct (handle response (SessionGet url) w) as [[[html|msg]|e] w1]; cbn [bind run];
    try (exists []; split; [reflexivity | cbn; lia]).
  destruct (_parse_search_results_page (BeautifulSoup html)) as [urls|e]; cbn [lift bind];
    [|exists []; split; [reflexivity | cbn; lia]].
  destruct (scrape_each_trace (limited (Some limit_per_search) urls) w1)
    as (k & Hk & Hall & _).
  destruct (run handle (scrape_each (limited (Some limit_per_search) urls)) w1)
    as [[out w2] asked].
  cbn [snd fetched] in *. eexists. split; [reflexivity|].
  apply Forall2_length in Hall. rewrite Hall, length_firstn.
  unfold limited in Hk. rewrite length_firstn in Hk. lia.
Qed.

(** X20: A fetch that fails with a [RequestException] gives no records and no
    exception, for a question page and for a listing page alike, and
    nothing more is fetched. *)
Theorem failed_fetch_gives_no_records
  (url msg : string) (limit_per_search : option Z) (w w' : World) :
  (forall normalized_url : string,
      _normalize_url url = Ok normalized_url ->
      handle response (SessionGet normalized_url) w = (Ok (RequestException msg), w') ->
      run handle (_scrape_question url) w
      = (Ok [], w', [Asked (SessionGet normalized_url)]))
  /\ (handle response (SessionGet url) w = (Ok (RequestException msg), w') ->
      run handle (_scrape_search url limit_per_search) w
      = (Ok [], w', [Asked (SessionGet url)])).
Proof.
  split.
  - intros n Hn Hq. unfold _scrape_question, _get. rewrite Hn. cbn [lift bind run].
    now rewrite Hq.
  - intros Hs. unfold _scrape_search, _get. cbn [bind run]. now rewrite Hs.
Qed.

(** X21: An exception from one question page ends the loop over the question
    URLs: the exception comes out, and the URLs after it are not fetched. *)
Theorem page_exception_ends_listing
  (q_url : string) (rest : list string) (e : exn) (w w' : World) (asked : list request) :
  run handle (_scrape_question q_url) w = (Raise e, w', asked) ->
  run handle (scrape_each (q_url :: rest)) w = (Raise e, w', asked).
Proof.
  intros H. cbn [scrape_each]. rewrite run_bind, H. reflexivity.
Qed.

End Handled.

Lemma site_scrape_question (pages : string -> response) (now : string) (u : string) :
  exists asked,
    run (site pages now) (_scrape_question u) tt = (page_records pages now u, tt, asked).
Proof.
  unfold _scrape_question, page_records, _get.
  destruct (_normalize_url u) as [n|e]; cbn [lift bind rbind run site];
    [|now eexists].
  destruct (pages n) as [html|msg]; cbn [bind run]; [|now eexists].
  unfold parse_question_page, _parse_question_page.
  destruct (_extract_answer_blocks (BeautifulSoup html)) as [blocks|e];
    cbn [rbind run]; [|now eexists].
  unfold call. cbn [bind run site lift].
  destruct (build_records _ _ _ _ _ _ _); cbn [run]; now eexists.
Qed.

Lemma site_scrape_each (pages : string -> response) (now : string) (urls : list string) :
  exists asked,
    run (site pages now) (scrape_each urls) tt
    = (concat_results (page_records pages now) urls, tt, asked).
Proof.
  induction urls as [|u rest [asked' IH]]; [now eexists|].
  cbn [scrape_each concat_results]. rewrite run_bind.
  destruct (site_scrape_question pages now u) as [asked ->].
  destruct (page_records pages now u) as [found|e]; cbn [rbind]; [|now eexists].
  rewrite run_bind, IH.
  destruct (concat_results (page_records pages now) rest); cbn [rbind run]; now eexists.
Qed.

Lemma site_scrape_search (pages : string -> response) (now : string) (url : string)
  (limit_per_search : option Z) :
  exists asked,
    run (site pages now) (_scrape_search url limit_per_search) tt
    = (match pages url with
       | RequestException _ => Ok []
       | Body html =>
           found <- _parse_search_results_page (BeautifulSoup html) ;;
           concat_results (page_records pages now) (limited limit_per_search found)
       end, tt, asked).
Proof.
  unfold _scrape_search, _get. cbn [bind run site].
  destruct (pages url) as [html|msg]; cbn [bind run]; [|now eexists].
  destruct (_parse_search_results_page (BeautifulSoup html)) as [found|e];
    cbn [lift bind rbind run]; [|now eexists].
  destruct (site_scrape_each pages now (limited limit_per_search found)) as [asked ->].
  now eexists.
Qed.

(** X22: On a web whose answers depend on the URL alone, the loop over the
    question URLs returns the records of the pages one after the other, in
    the order of the URLs, a page whose fetch fails giving none; and the
    listing scrape does the same for the collected URLs, cut at the limit. *)
Theorem listing_is_concatenation
  (pages : string -> response) (now : string) (url : string)
  (limit_per_search : option Z) (question_urls : list string) :
  fst (fst (run (site pages now) (scrape_each question_urls) tt))
  = concat_results (page_records pages now) question_urls
  /\ fst (fst (run (site pages now) (_scrape_search url limit_per_search) tt))
     = match pages url with
       | RequestException _ => Ok []
       | Body html =>
           found <- _parse_search_results_page (BeautifulSoup html) ;;
           concat_results (page_records pages now) (limited limit_per_search found)
       end.
Proof.
  split.
  - destruct (site_scrape_each pages now question_urls) as [asked ->]. reflexivity.
  - destruct (site_scrape_search pages now url limit_per_search) as [asked ->]. reflexivity.
Qed.

(** X23: [scrape_url] gives the dictionaries of the records of the listing
    scrape when the path of the URL contains [search] or its query contains
    [q=], and those of the question scrape of the URL otherwise, where the
    limit plays no part; it raises what the parsing of the URL raises. *)
Theorem scrape_url_routes
  (pages : string -> response) (now : string) (url : string) (limit_per_search : option Z) :
  fst (fst (run (site pages now) (scrape_url url limit_per_search) tt))
  = (parsed <- path_and_query url ;;
     records <- (if Str.contains "search" (fst parsed) || Str.contains "q=" (snd parsed)
                 then fst (fst (run (site pages now) (_scrape_search url limit_per_search) tt))
                 else page_records pages now url) ;;
     Ok (map to_dict records)).
Proof.
  unfold scrape_url, _is_search_url.
  destruct (path_and_query url) as [[path query]|e]; cbn [rbind fst snd]; [|reflexivity].
  assert (S : forall (m : io (list QuoraAnswerRecord)) (out : result (list QuoraAnswerRecord))
                (asked : list request),
             run (site pages now) m tt = (out, tt, asked) ->
             fst (fst (run (site pages now)
                         (bind m (fun records => Ret (map to_dict records))) tt))
             = (records <- out ;; Ok (map to_dict records))).
  { intros m out asked H. rewrite run_bind, H. destruct out; reflexivity. }
  destruct (Str.contains "search" path); cbn [orb lift bind].
  - destruct (site_scrape_search pages now url limit_per_search) as [asked H].
    rewrite (S _ _ _ H), H. reflexivity.
  - destruct (Str.contains "q=" query); cbn [lift bind].
    + destruct (site_scrape_search pages now url limit_per_search) as [asked H].
      rewrite (S _ _ _ H), H. reflexivity.
    + destruct (site_scrape_question pages now url) as [asked H].
      now rewrite (S _ _ _ H).
Qed.

End ScrapeProperties.

(** ** The further properties at concrete inputs *)

Lemma located_blocks_of_two_answers_page :
  @_extract_answer_blocks cpython two_answers_page = Ok two_answers_blocks
  /\ (NoDup (map text two_answers_blocks)
      /\ Forall (fun b => text b <> EmptyString /\ Str.strip (text b) = text b)
                two_answers_blocks).
Proof.
  split; [vm_compute; reflexivity|].
  apply (@located_blocks_distinct_nonempty cpython two_answers_page two_answers_blocks).
  vm_compute. reflexivity.
Defined.

Lemma answers_of_two_answers_page :
  (@_extract_answer_blocks cpython two_answers_page = Ok two_answers_blocks
   /\ two_answers_blocks <> []
   /\ @_parse_question_page cpython two_answers_page sample_url sample_time
      = Ok two_answers_records)
  /\ (map answers two_answers_records = map text two_answers_blocks
      /\ NoDup (map answers two_answers_records)
      /\ Forall (fun r => answers r <> EmptyString) two_answers_records).
Proof.
  split; [split; [vm_compute; reflexivity | split; [discriminate | vm_compute; reflexivity]]|].
  apply (@answers_distinct_nonempty cpython two_answers_page sample_url sample_time
           two_answers_blocks two_answers_records);
    [vm_compute; reflexivity | discriminate | vm_compute; reflexivity].
Defined.


Lemma inf_upvotes_page_raises_overflow :
  @_parse_question_page cpython inf_upvotes_page sample_url sample_time
  = Raise (OverflowError "cannot convert float infinity to integer")
  /\ (OverflowError "cannot convert float infinity to integer"
      = OverflowError "cannot convert float infinity to integer"
      \/ exists href,
           Str.contains "/profile/" href = true
           /\ @_normalize_url cpython href
              = Raise (OverflowError "cannot convert float infinity to integer")).
Proof.
  split; [vm_compute; reflexivity|].
  apply (@page_parser_raises_only cpython inf_upvotes_page sample_url sample_time).
  vm_compute. reflexivity.
Defined.

Lemma counts_of_a_block :
  _extract_upvotes (Elem "div" [] [Text "Good answer 1.2k Upvotes, 452 views"]) = Ok (Some 1200)
  /\ exists before after maybe tok,
       Str.split (Str.lower (get_text " " (Elem "div" [] [Text "Good answer 1.2k Upvotes, 452 views"])))
       = (before ++ maybe :: tok :: after)%list
       /\ Str.contains "upvote" tok = true /\ _parse_compact_number maybe = Ok (Some 1200).
Proof.
  split; [vm_compute; reflexivity|].
  apply (proj1 (counts_come_from_preceding_token
                  (Elem "div" [] [Text "Good answer 1.2k Upvotes, 452 views"]) 1200)).
  vm_compute. reflexivity.
Defined.

Lemma collected_urls_of_results_page :
  @_parse_search_results_page cpython results_page
  = Ok ["https://www.quora.com/What-is-AI"; "https://www.quora.com/question/456-foo"]
  /\ (NoDup ["https://www.quora.com/What-is-AI"; "https://www.quora.com/question/456-foo"]
      /\ forall u : string,
           In u ["https://www.quora.com/What-is-AI"; "https://www.quora.com/question/456-foo"]
           <-> exists h, In h (link_targets results_page) /\ skipped h = false
                         /\ (slug_marker h || Str.contains "/question/" h) = true
                         /\ @_normalize_url cpython h = Ok u).
Proof.
  split; [vm_compute; reflexivity|].
  apply (@collected_urls_unique_and_complete cpython results_page).
  vm_compute. reflexivity.
Defined.

Lemma bad_bracket_page_raises :
  @_parse_search_results_page cpython bad_bracket_page = Raise (ValueError "Invalid IPv6 URL")
  /\ exists h, In h (link_targets bad_bracket_page) /\ skipped h = false
               /\ @_normalize_url cpython h = Raise (ValueError "Invalid IPv6 URL").
Proof.
  split; [vm_compute; reflexivity|].
  apply (@collector_raises_only cpython bad_bracket_page).
  vm_compute. reflexivity.
Defined.

Lemma to_dict_of_equal_records :
  to_dict (hd (mkRecord 0 None "" "" "" "" 0 "" None None None []) two_answers_records)
  = to_dict (hd (mkRecord 0 None "" "" "" "" 0 "" None None None []) two_answers_records)
  /\ hd (mkRecord 0 None "" "" "" "" 0 "" None None None []) two_answers_records
     = hd (mkRecord 0 None "" "" "" "" 0 "" None None None []) two_answers_records.
Proof.
  split; [reflexivity|].
  apply (to_dict_injective
           (hd (mkRecord 0 None "" "" "" "" 0 "" None None None []) two_answers_records)
           (hd (mkRecord 0 None "" "" "" "" 0 "" None None None []) two_answers_records)).
  reflexivity.
Defined.

Lemma export_csv_writes_one_file :
  In ("csv", ("csv", Exporter.CsvOf two_answers_records))
     (renderings (fun records : list QuoraAnswerRecord => records) two_answers_records)
  /\ let w := Exporter.mkWorld QuoraAnswerRecord (list QuoraAnswerRecord)
                [] [] "20240101_000000" [] in
     let path :=
       Exporter.os_path_join "out" ("quora_results" ++ "_" ++ Exporter.clock w ++ "." ++ "csv") in
     exists w' asked,
       Exporter.run Exporter.serve
         (Exporter.export_data (fun records : list QuoraAnswerRecord => records)
            two_answers_records "out" "quora_results" "csv") w
       = (Ok path, w', asked)
       /\ Exporter.endswith path ("." ++ "csv") = true
       /\ Exporter.directories w' = "out" :: Exporter.directories w
       /\ Exporter.files w' = (path, Exporter.CsvOf two_answers_records) :: Exporter.files w.
Proof.
  assert (H : In ("csv", ("csv", Exporter.CsvOf two_answers_records))
                 (renderings (fun records : list QuoraAnswerRecord => records)
                             two_answers_records))
    by (right; left; reflexivity).
  split; [exact H|].
  exact (export_writes_one_file QuoraAnswerRecord (list QuoraAnswerRecord)
           (fun records => records) two_answers_records "out" "quora_results" "csv" "csv"
           (Exporter.CsvOf two_answers_records)
           (Exporter.mkWorld QuoraAnswerRecord (list QuoraAnswerRecord)
              [] [] "20240101_000000" []) H).
Defined.


Lemma export_into_refusing_world :
  (In "html" ["json"; "csv"; "excel"; "html"]
   /\ @refusing QuoraAnswerRecord (list QuoraAnswerRecord) unit (Exporter.Makedirs "out") tt
      = (Raise (OSError "permission denied"), tt))
  /\ Exporter.run refusing
       (Exporter.export_data (fun records : list QuoraAnswerRecord => records)
          two_answers_records "out" "quora_results" "html") tt
     = (Raise (OSError "permission denied"), tt, [Exporter.Asked (Exporter.Makedirs "out")]).
Proof.
  assert (H : In "html" ["json"; "csv"; "excel"; "html"])
    by (right; right; right; left; reflexivity).
  split; [split; [exact H | reflexivity]|].
  exact (export_stops_when_makedirs_fails QuoraAnswerRecord (list QuoraAnswerRecord)
           (fun records => records) two_answers_records "out" "quora_results" "html"
           (OSError "permission denied") unit refusing tt tt H eq_refl).
Defined.

Lemma export_to_absolute_base_filename :
  (In ("html", ("html", Exporter.HtmlOf two_answers_records))
      (renderings (fun records : list QuoraAnswerRecord => records) two_answers_records)
   /\ Str.startswith "/etc/report" "/" = true)
  /\ let w := Exporter.mkWorld QuoraAnswerRecord (list QuoraAnswerRecord)
                [] [] "20240101_000000" [] in
     exists w' asked,
       Exporter.run Exporter.serve
         (Exporter.export_data (fun records : list QuoraAnswerRecord => records)
            two_answers_records "out" "/etc/report" "html") w
       = (Ok ("/etc/report" ++ "_" ++ Exporter.clock w ++ "." ++ "html"), w', asked)
       /\ Exporter.files w'
          = ("/etc/report" ++ "_" ++ Exporter.clock w ++ "." ++ "html",
             Exporter.HtmlOf two_answers_records) :: Exporter.files w
       /\ Exporter.directories w' = "out" :: Exporter.directories w.
Proof.
  assert (H : In ("html", ("html", Exporter.HtmlOf two_answers_records))
                 (renderings (fun records : list QuoraAnswerRecord => records)
                             two_answers_records))
    by (right; right; right; left; reflexivity).
  split; [split; [exact H | reflexivity]|].
  exact (export_absolute_base_filename QuoraAnswerRecord (list QuoraAnswerRecord)
           (fun records => records) two_answers_records "out" "/etc/report" "html" "html"
           (Exporter.HtmlOf two_answers_records)
           (Exporter.mkWorld QuoraAnswerRecord (list QuoraAnswerRecord)
              [] [] "20240101_000000" []) H eq_refl).
Defined.

Lemma missing_page_gives_no_records :
  (@_normalize_url cpython "/What-is-missing" = Ok "https://www.quora.com/What-is-missing"
   /\ Scrape.site sample_site sample_time Scrape.response
        (Scrape.SessionGet "https://www.quora.com/What-is-missing") tt
      = (Ok (Scrape.RequestException "404 Client Error"), tt))
  /\ Scrape.run (Scrape.site sample_site sample_time)
       (@Scrape._scrape_question cpython sample_web "/What-is-missing") tt
     = (Ok [], tt, [Scrape.Asked (Scrape.SessionGet "https://www.quora.com/What-is-missing")]).
Proof.
  split; [split; vm_compute; reflexivity|].
  apply (proj1 (@failed_fetch_gives_no_records cpython sample_web unit
                  (Scrape.site sample_site sample_time)
                  "/What-is-missing" "404 Client Error" None tt tt)
               "https://www.quora.com/What-is-missing");
    vm_compute; reflexivity.
Defined.

Lemma inf_page_ends_listing :
  Scrape.run (Scrape.site sample_site sample_time)
    (@Scrape._scrape_question cpython sample_web "/What-is-inf") tt
  = (Raise (OverflowError "cannot convert float infinity to integer"), tt,
     [Scrape.Asked (Scrape.SessionGet "https://www.quora.com/What-is-inf")])
  /\ Scrape.run (Scrape.site sample_site sample_time)
       (@Scrape.scrape_each cpython sample_web ["/What-is-inf"; "/What-is-AI"]) tt
     = (Raise (OverflowError "cannot convert float infinity to integer"), tt,
        [Scrape.Asked (Scrape.SessionGet "https://www.quora.com/What-is-inf")]).
Proof.
  split; [vm_compute; reflexivity|].
  apply (@page_exception_ends_listing cpython sample_web unit
           (Scrape.site sample_site sample_time) "/What-is-inf" ["/What-is-AI"]).
  vm_compute. reflexivity.
Defined.

(** A listing scrape of the sample site with a limit of one: the results
    page and the first collected question are fetched, and the records of
    that question come back as dictionaries. *)
Example scrape_url_sample :
  let out := Scrape.run (Scrape.site sample_site sample_time)
               (@Scrape.scrape_url cpython sample_web
                  "https://www.quora.com/search?q=AI" (Some 1)) tt in
  fst (fst out) = Ok (map to_dict two_answers_records)
  /\ Scrape.fetched (snd out)
     = ["https://www.quora.com/search?q=AI"; "https://www.quora.com/What-is-AI"].
Proof. vm_compute. split; reflexivity. Qed.
